(** * ESG RAG API: a shallow embedding of [api.py] and its properties

    The development follows the layout of the Python module:
    - the pydantic request and response models;
    - the process-wide state (the global [vector_store], the upload
      directory, standard output) together with a log of the calls made to
      the helpers imported from [vector];
    - an exception-and-state monad in which the route handlers are written
      line by line;
    - a step-wise version of the refresh handler, used to talk about what a
      request interleaved with a refresh can observe;
    - the theorems.

    Python [str] values are [string]s holding their UTF-8 encoding, so that
    [==] on [str] is equality of [string]s.  Python [int] is [Z]. *)

From Stdlib Require Import ZArith Ascii String.
From stdpp Require Import base option list strings gmap pretty.

Open Scope Z_scope.

(** ** Exceptions *)

(** [HTTPException] is the only exception class the module constructs; every
    other subclass of [Exception] that a helper may raise is an [Error] with
    its class name and message. *)
Inductive exn : Type :=
| HTTPException (status_code : Z) (detail : string)
| Error (class_name : string) (message : string).

(** [str(e)]: Starlette prints an [HTTPException] as ["<status>: <detail>"],
    other exceptions print their message. *)
Definition str (e : exn) : string :=
  match e with
  | HTTPException c d => pretty c +:+ ": " +:+ d
  | Error _ m => m
  end.

Definition status_of (e : exn) : option Z :=
  match e with
  | HTTPException c _ => Some c
  | Error _ _ => None
  end.

Inductive result (A : Type) : Type :=
| Return (a : A)
| Raise (e : exn).
Arguments Return {A} a.
Arguments Raise {A} e.

Definition raised {A} (r : result A) : Prop :=
  match r with Return _ => False | Raise _ => True end.

Definition raised_status {A} (r : result A) : option Z :=
  match r with Return _ => None | Raise e => status_of e end.

(** ** Request and response models *)

(** [class Query(BaseModel)].  All three optional fields are [Optional[...]],
    so an explicit null is a legal value. *)
Record Query : Type := mkQuery {
  text : string;
  top_k : option Z;
  model : option string;
  language : option string
}.

(** A field of a request body is either left out or given. *)
Inductive field (A : Type) : Type :=
| Omitted
| Given (a : A).
Arguments Omitted {A}.
Arguments Given {A} a.

Definition or_default {A} (f : field A) (d : A) : A :=
  match f with Omitted => d | Given a => a end.

Record QueryBody : Type := mkQueryBody {
  body_text : string;
  body_top_k : field (option Z);
  body_model : field (option string);
  body_language : field (option string)
}.

(** Construction of a [Query] from a body: the class-level defaults of lines
    21-23 fill the fields that were left out. *)
Definition Query_of_body (b : QueryBody) : Query :=
  {| text := body_text b;
     top_k := or_default (body_top_k b) (Some 3);
     model := or_default (body_model b) (Some "gemini-pro");
     language := or_default (body_language b) (Some "English") |}.

Record InsightResponse : Type := mkInsightResponse { insights : string }.

Record HealthResponse : Type := mkHealthResponse {
  health_status : string;
  vector_store_loaded : bool
}.

Record RefreshResponse : Type := mkRefreshResponse {
  refresh_status : string;
  refresh_message : string;
  document_count : Z
}.

Record FeedbackResponse : Type := mkFeedbackResponse {
  feedback_status : string;
  feedback_message : string
}.

(** [UploadFile]: the client's file name (may be absent) and the bytes. *)
Record UploadFile : Type := mkUploadFile {
  filename : option string;
  file : string
}.

(** The object returned by the generator; only [.content] is read. *)
Record AIMessage : Type := mkAIMessage { message_content : string }.

Definition UPLOAD_DIR : string := "uploads".

Definition newline : string := String "010"%char EmptyString.

(** Truth value of a Python [str]: non-empty. *)
Definition truthy (s : string) : bool :=
  match s with EmptyString => false | String _ _ => true end.

(** [os.path.join(a, b)] on POSIX, two arguments. *)
Definition path_join (a b : string) : string :=
  match b with
  | String "/"%char _ => b
  | _ =>
      if bool_decide (a = "") then b
      else match last (list_ascii_of_string a) with
           | Some "/"%char => a +:+ b
           | _ => a +:+ "/" +:+ b
           end
  end.

(** [s] without its prefix [pre], when it has it. *)
Fixpoint strip_prefix (pre s : string) : option string :=
  match pre, s with
  | EmptyString, _ => Some s
  | String a pre', String b s' =>
      if bool_decide (a = b) then strip_prefix pre' s' else None
  | String _ _, EmptyString => None
  end.

Fixpoint has_slash (s : string) : bool :=
  match s with
  | EmptyString => false
  | String c rest => if bool_decide (c = "/"%char) then true else has_slash rest
  end.

(** [os.listdir(dir)] over a disk of regular files: the names directly under
    [dir]. *)
Definition listdir (dir : string) (disk : gmap string string) : list string :=
  omap (fun p =>
          match strip_prefix (dir +:+ "/") p with
          | Some name =>
              if has_slash name || bool_decide (name = "") then None else Some name
          | None => None
          end)
       (elements (dom disk)).

(** The language instructions of lines 129 and 131. *)
Definition instruction_fr : string :=
  "Réponds toujours en français, quelle que soit la langue de la question.".
Definition instruction_ar : string :=
  "أجب دائمًا باللغة العربية، بغض النظر عن لغة السؤال.".

(** Lines 127-131 of [query_rag]. *)
Definition system_instruction_for (lang : option string) : string :=
  let system_instruction := "" in
  if bool_decide (lang = Some "Français") then instruction_fr
  else if bool_decide (lang = Some "Arabic") then instruction_ar
  else system_instruction.

(** Lines 133-135 of [query_rag]. *)
Definition modified_query_of (query : Query) : string :=
  let system_instruction := system_instruction_for (language query) in
  let modified_query := text query in
  if truthy system_instruction
  then system_instruction +:+ newline +:+ newline +:+ text query
  else modified_query.

(** ** The types owned by the [vector] module and the provider libraries *)

(** [Store] is the FAISS index object, [Row] an element of the sequence
    returned by [fetch_data_from_table], [float] the type of scores and
    ratings.  The API only passes values of these types around. *)
Class Types : Type := {
  Store : Type;
  Row : Type;
  float : Type
}.

(** A retrieved document: [.page_content] and [.metadata] are read. *)
Record RetrievedDoc : Type := mkRetrievedDoc {
  page_content : string;
  doc_metadata : gmap string string
}.

Section Model.
Context `{Types}.

(** [class Document(BaseModel)]; the entries of the similar-documents
    answer have the same three keys. *)
Record Document : Type := mkDocument {
  content : string;
  metadata : gmap string string;
  score : option float
}.

(** [class Response(BaseModel)]. *)
Record Response : Type := mkResponse {
  answer : string;
  sources : option (list Document)
}.

Record SimilarResponse : Type := mkSimilarResponse {
  similar_status : string;
  documents : list Document
}.

Record Feedback : Type := mkFeedback {
  question : string;
  model_answer : string;
  rating : float;
  comments : option string
}.

(** *** The imported helpers

    One value of [vector] fixes how the six functions imported on lines
    10-17 behave: each either returns or raises.  [fetch_data_from_table]
    takes no argument, its outcome is that of the table at the time of the
    request. *)
Record vector : Type := mkVector {
  fetch_data_from_table : result (list Row);
  create_vector_store_from_sql_data : list Row -> string -> result Store;
  retrieve_relevant_documents_with_scores :
    string -> Store -> option Z -> result (list RetrievedDoc * list float);
  generate_response_with_rag :
    string -> Store -> option string -> result AIMessage;
  analyze_infographic : string -> result string;
  save_feedback : string -> string -> float -> option string -> result unit
}.

(** What the handlers use from [os], [shutil] and [uuid]: the fresh
    identifier of the request, [os.path.splitext], and the I/O faults that
    opening, filling and unlinking a file may meet. *)
Record host : Type := mkHost {
  uuid4 : string;
  splitext : string -> string * string;
  open_fault : string -> option exn;
  copyfileobj_fault : option exn;
  unlink_fault : string -> option exn
}.

(** *** Calls to the helpers, as recorded in the log *)
Inductive call : Type :=
| Call_fetch_data_from_table
| Call_create_vector_store_from_sql_data (docs : list Row) (embeddings_model_name : string)
| Call_retrieve_relevant_documents_with_scores (query : string) (vs : Store) (k : option Z)
| Call_generate_response_with_rag (query : string) (vs : Store) (model_name : option string)
| Call_analyze_infographic (file_path : string)
| Call_save_feedback (q a : string) (r : float) (c : option string).

(** *** Process state

    [vector_store] is the module-level global of line 46; [files] maps the
    paths that exist on disk to their contents; [stdout] collects what
    [print] wrote; [calls] is the log of helper calls, oldest first. *)
Record world : Type := mkWorld {
  vector_store : option Store;
  files : gmap string string;
  stdout : list string;
  calls : list call
}.

Definition set_vector_store (vs : option Store) (w : world) : world :=
  {| vector_store := vs; files := files w; stdout := stdout w; calls := calls w |}.
Definition set_files (f : gmap string string) (w : world) : world :=
  {| vector_store := vector_store w; files := f; stdout := stdout w; calls := calls w |}.
Definition add_stdout (s : string) (w : world) : world :=
  {| vector_store := vector_store w; files := files w;
     stdout := stdout w ++ [s]; calls := calls w |}.
Definition add_call (c : call) (w : world) : world :=
  {| vector_store := vector_store w; files := files w;
     stdout := stdout w; calls := calls w ++ [c] |}.

(** *** The monad of handlers: state, and an outcome that returns or raises *)
Definition M (A : Type) : Type := world -> result A * world.

#[export] Instance M_ret : MRet M := fun A (a : A) w => (Return a, w).

#[export] Instance M_bind : MBind M := fun A B (k : A -> M B) (m : M A) w =>
  match m w with
  | (Return a, w') => k a w'
  | (Raise e, w') => (Raise e, w')
  end.

Definition raise {A} (e : exn) : M A := fun w => (Raise e, w).

(** [try: m  except Exception as e: h e] *)
Definition try_except {A} (m : M A) (h : exn -> M A) : M A := fun w =>
  match m w with
  | (Return a, w') => (Return a, w')
  | (Raise e, w') => h e w'
  end.

Definition lift {A} (r : result A) : M A := fun w => (r, w).

Definition print (s : string) : M unit := fun w => (Return tt, add_stdout s w).

Definition read_vector_store : M (option Store) := fun w => (Return (vector_store w), w).

Definition read_files : M (gmap string string) := fun w => (Return (files w), w).

(** The assignment [vector_store = vs] to the global. *)
Definition assign_vector_store (vs : Store) : M unit :=
  fun w => (Return tt, set_vector_store (Some vs) w).

(** A helper call: logged, then its outcome. *)
Definition invoke {A} (c : call) (r : result A) : M A :=
  fun w => (r, add_call c w).

(** A computation that leaves the global [vector_store] as it found it. *)
Definition keeps_store {A} (m : M A) : Prop :=
  forall w, vector_store (snd (m w)) = vector_store w.

(** A computation that leaves the disk as it found it. *)
Definition keeps_files {A} (m : M A) : Prop :=
  forall w, files (snd (m w)) = files w.

(** *** File operations *)

(** [open(path, "wb")]: creates or truncates the file. *)
Definition open_wb (OS : host) (path : string) : M unit := fun w =>
  match open_fault OS path with
  | Some e => (Raise e, w)
  | None => (Return tt, set_files (<[path := ""]> (files w)) w)
  end.

(** [shutil.copyfileobj(src, buffer)] into the file open at [path]. *)
Definition copyfileobj (OS : host) (data : string) (path : string) : M unit := fun w =>
  match copyfileobj_fault OS with
  | Some e => (Raise e, w)
  | None => (Return tt, set_files (<[path := data]> (files w)) w)
  end.

(** [os.unlink(path)] *)
Definition unlink (OS : host) (path : string) : M unit := fun w =>
  match unlink_fault OS path with
  | Some e => (Raise e, w)
  | None =>
      match files w !! path with
      | Some _ => (Return tt, set_files (delete path (files w)) w)
      | None => (Raise (Error "FileNotFoundError" ("No such file or directory: " +:+ path)), w)
      end
  end.

End Model.

(** ** The route handlers *)

Section Handlers.
Context `{Types}.
Variable V : vector.
Variable OS : host.

Definition call_fetch_data_from_table : M (list Row) :=
  invoke Call_fetch_data_from_table (fetch_data_from_table V).

Definition call_create_vector_store_from_sql_data
    (docs : list Row) (embeddings_model_name : string) : M Store :=
  invoke (Call_create_vector_store_from_sql_data docs embeddings_model_name)
         (create_vector_store_from_sql_data V docs embeddings_model_name).

Definition call_retrieve_relevant_documents_with_scores
    (query : string) (vs : Store) (k : option Z) : M (list RetrievedDoc * list float) :=
  invoke (Call_retrieve_relevant_documents_with_scores query vs k)
         (retrieve_relevant_documents_with_scores V query vs k).

Definition call_generate_response_with_rag
    (query : string) (vs : Store) (model_name : option string) : M AIMessage :=
  invoke (Call_generate_response_with_rag query vs model_name)
         (generate_response_with_rag V query vs model_name).

Definition call_analyze_infographic (file_path : string) : M string :=
  invoke (Call_analyze_infographic file_path) (analyze_infographic V file_path).

Definition call_save_feedback (q a : string) (r : float) (c : option string) : M unit :=
  invoke (Call_save_feedback q a r c) (save_feedback V q a r c).

(** Lines 48-65: the start-up half of [lifespan]. *)
Definition lifespan_startup : M unit :=
  try_except
    (print "Loading data from Cloud SQL...";;
     docs ← call_fetch_data_from_table;
     match docs with
     | [] => print "No data found in table."
     | _ :: _ =>
         print "Creating/loading FAISS index...";;
         let embeddings_model_name := "textembedding-gecko@latest" in
         vs ← call_create_vector_store_from_sql_data docs embeddings_model_name;
         assign_vector_store vs;;
         print "Vector store loaded successfully"
     end)
    (fun e => print ("Error loading vector store: " +:+ str e)).

(** Lines 67-74: the shut-down half of [lifespan]. *)
Fixpoint unlink_each (names : list string) : M unit :=
  match names with
  | [] => mret tt
  | f :: rest =>
      let file_path := path_join UPLOAD_DIR f in
      try_except
        (disk ← read_files;
         if bool_decide (is_Some (disk !! file_path))
         then unlink OS file_path
         else mret tt)
        (fun e => print ("Error deleting " +:+ file_path +:+ ": " +:+ str e));;
      unlink_each rest
  end.

Definition lifespan_shutdown : M unit :=
  print "Cleaning up resources...";;
  disk ← read_files;
  unlink_each (listdir UPLOAD_DIR disk).

(** Lines 83-86. *)
Definition get_vector_store : M Store :=
  g ← read_vector_store;
  match g with
  | None => raise (HTTPException 503 "Vector store is not available")
  | Some vs => mret vs
  end.

(** Lines 88-96. *)
Definition health_check : M HealthResponse :=
  g ← read_vector_store;
  mret {| health_status := "healthy";
          vector_store_loaded := match g with None => false | Some _ => true end |}.

(** Lines 98-117. *)
Definition refresh_vector_store : M RefreshResponse :=
  try_except
    (docs ← call_fetch_data_from_table;
     match docs with
     | [] => raise (HTTPException 404 "No data found in table")
     | _ :: _ => mret tt
     end;;
     let embeddings_model_name := "textembedding-gecko@latest" in
     vs ← call_create_vector_store_from_sql_data docs embeddings_model_name;
     assign_vector_store vs;;
     mret {| refresh_status := "success";
             refresh_message := "Vector store refreshed successfully";
             document_count := Z.of_nat (length docs) |})
    (fun e => raise (HTTPException 500 ("Error refreshing vector store: " +:+ str e))).

(** The loop of lines 139-145 (and 162-168): [enumerate] the documents and
    read [scores[i]]; an index past the end of [scores] raises. *)
Fixpoint collect_sources (i : nat) (docs : list RetrievedDoc) (scores : list float)
    (acc : list Document) : result (list Document) :=
  match docs with
  | [] => Return acc
  | doc :: rest =>
      match scores !! i with
      | Some s =>
          collect_sources (S i) rest scores
            (acc ++ [ {| content := page_content doc;
                         metadata := doc_metadata doc;
                         score := Some s |} ])
      | None => Raise (Error "IndexError" "list index out of range")
      end
  end.

(** Lines 119-152. *)
Definition query_rag (query : Query) (vs : Store) : M Response :=
  try_except
    ('(relevant_docs, scores) ←
        call_retrieve_relevant_documents_with_scores (text query) vs (top_k query);
     let modified_query := modified_query_of query in
     response ← call_generate_response_with_rag modified_query vs (model query);
     srcs ← lift (collect_sources 0 relevant_docs scores []);
     mret {| answer := message_content response; sources := Some srcs |})
    (fun e => raise (HTTPException 500 ("Error generating response: " +:+ str e))).

(** Lines 154-172. *)
Definition get_similar_documents (query : Query) (vs : Store) : M SimilarResponse :=
  try_except
    ('(relevant_docs, scores) ←
        call_retrieve_relevant_documents_with_scores (text query) vs (top_k query);
     docs ← lift (collect_sources 0 relevant_docs scores []);
     mret {| similar_status := "success"; documents := docs |})
    (fun e => raise (HTTPException 500 ("Error searching documents: " +:+ str e))).

(** Lines 174-197. *)
Definition analyze_image (upload : UploadFile) : M InsightResponse :=
  try_except
    (name ← match filename upload with
            | Some n => mret n
            | None => raise (Error "TypeError"
                "expected str, bytes or os.PathLike object, not NoneType")
            end;
     let file_extension := snd (splitext OS name) in
     let fname := uuid4 OS +:+ file_extension in
     let file_path := path_join UPLOAD_DIR fname in
     open_wb OS file_path;;
     copyfileobj OS (file upload) file_path;;
     result ← call_analyze_infographic file_path;
     try_except
       (unlink OS file_path)
       (fun cleanup_error =>
          print ("Error cleaning up file " +:+ file_path +:+ ": " +:+ str cleanup_error));;
     mret {| insights := result |})
    (fun e => raise (HTTPException 500 ("Error analyzing image: " +:+ str e))).

(** Lines 199-214. *)
Definition submit_feedback (feedback : Feedback) : M FeedbackResponse :=
  try_except
    (call_save_feedback (question feedback) (model_answer feedback)
                        (rating feedback) (comments feedback);;
     mret {| feedback_status := "success";
             feedback_message := "Feedback submitted successfully!" |})
    (fun e =>
       print ("Error saving feedback: " +:+ str e);;
       raise (HTTPException 500 ("Error saving feedback: " +:+ str e))).


(** *** Routes

    [Depends(get_vector_store)] makes the framework run [get_vector_store]
    before the handler and hand its value over as [vs]; when the dependency
    raises, the handler body is not entered. *)
Definition post_query (query : Query) : M Response :=
  vs ← get_vector_store;
  query_rag query vs.

Definition post_similar_documents (query : Query) : M SimilarResponse :=
  vs ← get_vector_store;
  get_similar_documents query vs.

End Handlers.

(** ** The refresh handler, one line at a time

    The same handler as [refresh_vector_store], cut at the points where the
    global can be observed by another request: the program counter names the
    line about to run and carries the locals that are live there. *)

Section Stepwise.
Context `{Types}.

Inductive refresh_pc : Type :=
| At_fetch                                      (* line 105 *)
| At_check (docs : list Row)                    (* line 106 *)
| At_build (docs : list Row)                    (* line 110, right-hand side *)
| At_assign (docs : list Row) (vs : Store)      (* line 110, the assignment *)
| At_return (docs : list Row)                   (* lines 111-115 *)
| At_except (e : exn)                           (* line 117 *)
| Done (r : result RefreshResponse).

Definition embeddings_model_name : string := "textembedding-gecko@latest".

(** What line 117 raises for the exception [e] caught on line 116. *)
Definition refresh_failed (e : exn) : exn :=
  HTTPException 500 ("Error refreshing vector store: " +:+ str e).

Definition refresh_step (V : vector) (pc : refresh_pc) (w : world) : refresh_pc * world :=
  match pc with
  | At_fetch =>
      match fetch_data_from_table V with
      | Return docs => (At_check docs, add_call Call_fetch_data_from_table w)
      | Raise e => (At_except e, add_call Call_fetch_data_from_table w)
      end
  | At_check docs =>
      match docs with
      | [] => (At_except (HTTPException 404 "No data found in table"), w)
      | _ :: _ => (At_build docs, w)
      end
  | At_build docs =>
      let w' := add_call (Call_create_vector_store_from_sql_data docs embeddings_model_name) w in
      match create_vector_store_from_sql_data V docs embeddings_model_name with
      | Return vs => (At_assign docs vs, w')
      | Raise e => (At_except e, w')
      end
  | At_assign docs vs => (At_return docs, set_vector_store (Some vs) w)
  | At_return docs =>
      (Done (Return {| refresh_status := "success";
                       refresh_message := "Vector store refreshed successfully";
                       document_count := Z.of_nat (length docs) |}), w)
  | At_except e =>
      (Done (Raise (HTTPException 500 ("Error refreshing vector store: " +:+ str e))), w)
  | Done r => (Done r, w)
  end.

Fixpoint refresh_steps (V : vector) (n : nat) (c : refresh_pc * world) : refresh_pc * world :=
  match n with
  | O => c
  | S n' => refresh_steps V n' (refresh_step V (fst c) (snd c))
  end.

(** The other routes; each request comes with the behaviour the helpers and
    the host show during it. *)
Inductive request : Type :=
| GET_health
| POST_query (V : vector) (query : Query)
| POST_similar_documents (V : vector) (query : Query)
| POST_analyze_image (V : vector) (OS : host) (upload : UploadFile)
| POST_submit_feedback (V : vector) (feedback : Feedback).

Definition serve (r : request) (w : world) : world :=
  match r with
  | GET_health => snd (health_check w)
  | POST_query V q => snd (post_query V q w)
  | POST_similar_documents V q => snd (post_similar_documents V q w)
  | POST_analyze_image V OS u => snd (analyze_image V OS u w)
  | POST_submit_feedback V f => snd (submit_feedback V f w)
  end.

(** One refresh in flight, interleaved at line granularity with any number
    of other requests. *)
Inductive sys_step (V : vector) : refresh_pc * world -> refresh_pc * world -> Prop :=
| step_refresh pc w :
    sys_step V (pc, w) (refresh_step V pc w)
| step_request pc w r :
    sys_step V (pc, w) (pc, serve r w).

(** The store a request arriving in state [w] is handed by its dependency. *)
Definition store_seen (w : world) : result Store := fst (get_vector_store w).

End Stepwise.

(** ** Reading the log and the retrieved results *)

Section Observations.
Context `{Types}.

(** The [Document] built on lines 141-145 from a retrieved document and
    its score. *)
Definition source_of (d : RetrievedDoc) (s : float) : Document :=
  {| content := page_content d; metadata := doc_metadata d; score := Some s |}.

(** What line 152 raises for the exception [e] caught on line 151. *)
Definition generation_failed (e : exn) : exn :=
  HTTPException 500 ("Error generating response: " +:+ str e).

(** The path of the temporary file of lines 180-182. *)
Definition upload_path (OS : host) (name : string) : string :=
  path_join UPLOAD_DIR (uuid4 OS +:+ snd (splitext OS name)).

(** What line 63 prints for the exception [e] caught on line 62. *)
Definition startup_failed (e : exn) : string :=
  "Error loading vector store: " +:+ str e.

(** The value a handler returned, when it returned. *)
Definition fst_value {A} (r : result A * world) : option A :=
  match fst r with Return a => Some a | Raise _ => None end.

(** What line 172 raises for the exception [e] caught on line 171. *)
Definition search_failed (e : exn) : exn :=
  HTTPException 500 ("Error searching documents: " +:+ str e).

(** What line 197 raises for the exception [e] caught on line 196. *)
Definition image_failed (e : exn) : exn :=
  HTTPException 500 ("Error analyzing image: " +:+ str e).

(** What line 193 prints for the exception [e] caught on line 192. *)
Definition cleanup_failed (file_path : string) (e : exn) : string :=
  "Error cleaning up file " +:+ file_path +:+ ": " +:+ str e.


(** The calls a handler added to the log of [w]. *)
Definition new_calls (w w' : world) : list call :=
  drop (length (calls w)) (calls w').

(** The prompts of the generation calls of a log. *)
Definition generation_prompts (cs : list call) : list string :=
  omap (fun c => match c with
                 | Call_generate_response_with_rag p _ _ => Some p
                 | _ => None
                 end) cs.

(** The retrieved texts, concatenated in the order given. *)
Definition context_of (docs : list RetrievedDoc) : string :=
  foldr (fun d acc => page_content d +:+ acc) "" docs.

(** "The grounding context passed to the generation call is the
    concatenation of the retrieved results": [ctx] reads the grounding
    context off a generation call, and the last call of the request carries
    the context of what the Retriever returned to the handler. *)
Definition consumes_retrieved (ctx : call -> string)
    (V : vector) (q : Query) (vs : Store) (w : world) : Prop :=
  forall docs scores,
    retrieve_relevant_documents_with_scores V (text q) vs (top_k q) = Return (docs, scores) ->
    exists c, last (calls (snd (query_rag V q vs w))) = Some c
              /\ ctx c = context_of docs.

End Observations.

(** ** A small concrete deployment

    Rows are texts, the store is the list of indexed texts, scores are
    integers.  Used to run the handlers on concrete requests. *)

Module Demo.

Definition demo_types : Types := {| Store := list string; Row := string; float := Z |}.

Definition doc (s : string) : RetrievedDoc :=
  {| page_content := s; doc_metadata := {[ "doc" := "A" ]} |}.

Definition scope1 : string := "Scope 1 emissions fell 10%".
Definition water : string := "Water use rose 3%".

(** Retrieval by position: the first [k] texts of the store, scored
    [k, k-1, ...]. *)
Definition first_k (query : string) (vs : list string) (k : option Z)
    : result (list RetrievedDoc * list Z) :=
  match k with
  | Some n =>
      let hits := take (Z.to_nat n) vs in
      Return (doc <$> hits, (fun i => Z.of_nat (length hits - i)) <$> seq 0 (length hits))
  | None => Raise (Error "TypeError" "top_k is None")
  end.

(** The same hits, least relevant first. *)
Definition first_k_reversed (query : string) (vs : list string) (k : option Z)
    : result (list RetrievedDoc * list Z) :=
  match first_k query vs k with
  | Return (ds, ss) => Return (reverse ds, reverse ss)
  | Raise e => Raise e
  end.

Definition echo (query : string) (vs : list string) (m : option string) : result AIMessage :=
  Return {| message_content := "Answer to: " +:+ query |}.

Definition demo_vector
    (table : result (list string))
    (retriever : string -> list string -> option Z -> result (list RetrievedDoc * list Z))
    (vision : result string) : @vector demo_types :=
  @mkVector demo_types
    table
    (fun docs _ => Return docs)
    retriever
    echo
    (fun _ => vision)
    (fun _ _ _ _ => Return tt).

Definition healthy : @vector demo_types :=
  demo_vector (Return [scope1; water]) first_k (Return "Emissions are falling.").

Definition empty_table : @vector demo_types :=
  demo_vector (Return []) first_k (Return "Emissions are falling.").

Definition table_down : @vector demo_types :=
  demo_vector (Raise (Error "OperationalError" "connection refused")) first_k
              (Return "Emissions are falling.").

Definition reversed_retriever : @vector demo_types :=
  demo_vector (Return [scope1; water]) first_k_reversed (Return "Emissions are falling.").

Definition vision_down : @vector demo_types :=
  demo_vector (Return [scope1; water]) first_k
              (Raise (Error "ServiceUnavailable" "vision provider timed out")).

(** A host without I/O faults; the extension is what follows the last dot. *)
Fixpoint extension (s : string) : string :=
  match s with
  | EmptyString => ""
  | String c rest =>
      match extension rest with
      | EmptyString => if bool_decide (c = "."%char) then s else ""
      | e => e
      end
  end.

Definition quiet_host : host :=
  {| uuid4 := "5f0c7c1e-3b7a-4d4e-9a51-0c2f6d1b8e77";
     splitext := fun p => (p, extension p);
     open_fault := fun _ => None;
     copyfileobj_fault := None;
     unlink_fault := fun _ => None |}.

(** A host on which files can be created but not removed. *)
Definition readonly_host : host :=
  {| uuid4 := "5f0c7c1e-3b7a-4d4e-9a51-0c2f6d1b8e77";
     splitext := fun p => (p, extension p);
     open_fault := fun _ => None;
     copyfileobj_fault := None;
     unlink_fault := fun _ => Some (Error "PermissionError" "Operation not permitted") |}.

(** The host of another request: a different identifier. *)
Definition other_host : host :=
  {| uuid4 := "0b9d3a52-7c1f-4e0a-8f6b-2a4d9e1c7b30";
     splitext := fun p => (p, extension p);
     open_fault := fun _ => None;
     copyfileobj_fault := None;
     unlink_fault := fun _ => None |}.

(** A host on which the copy into the temporary file fails. *)
Definition full_disk_host : host :=
  {| uuid4 := "5f0c7c1e-3b7a-4d4e-9a51-0c2f6d1b8e77";
     splitext := fun p => (p, extension p);
     open_fault := fun _ => None;
     copyfileobj_fault := Some (Error "OSError" "No space left on device");
     unlink_fault := fun _ => None |}.

Definition cold : @world demo_types := @mkWorld demo_types None ∅ [] [].

Definition warm : @world demo_types :=
  @mkWorld demo_types (Some [scope1; water]) ∅ [] [].

Definition index : @Store demo_types := [scope1; water].
Definition hits : list RetrievedDoc := [doc scope1; doc water].
Definition hit_scores : list (@float demo_types) := [2; 1].

Definition chart : UploadFile := {| filename := Some "chart.png"; file := "PNG-bytes" |}.

Definition ask (lang : option string) : Query :=
  {| text := "What happened to Scope 1 emissions?";
     top_k := Some 2; model := Some "gemini-pro"; language := lang |}.

(** A request with an explicit null [top_k], on which [first_k] raises. *)
Definition ask_null_k : Query :=
  {| text := "What happened to Scope 1 emissions?";
     top_k := None; model := Some "gemini-pro"; language := None |}.

(** A Retriever that returns one score too few. *)
Definition short_scores (query : string) (vs : list string) (k : option Z)
    : result (list RetrievedDoc * list Z) :=
  match first_k query vs k with
  | Return (ds, ss) => Return (ds, tail ss)
  | Raise e => Raise e
  end.

Definition generator_down : @vector demo_types :=
  @mkVector demo_types
    (Return [scope1; water])
    (fun docs _ => Return docs)
    first_k
    (fun _ _ _ => Raise (Error "ResourceExhausted" "quota exceeded"))
    (fun _ => Return "Emissions are falling.")
    (fun _ _ _ _ => Raise (Error "IOError" "disk full")).

End Demo.

(** * Properties *)

(** Unfolds the monad so that a handler applied to a state computes. *)
Ltac unfold_monad :=
  unfold mbind, mret, M_bind, M_ret, try_except, raise, lift, invoke, print,
    read_vector_store, assign_vector_store in *.

Ltac run_handler :=
  unfold_monad; cbn [fst snd vector_store files stdout calls
                     set_vector_store set_files add_stdout add_call] in *.

(** ** The dependency and the health probe *)

Section Availability.
Context `{Types}.
Implicit Types (V : vector) (w : world) (q : Query).

Lemma get_vector_store_none w :
  vector_store w = None ->
  get_vector_store w = (Raise (HTTPException 503 "Vector store is not available"), w).
Proof. intros Hnone. unfold get_vector_store. run_handler. by rewrite Hnone. Qed.

Lemma get_vector_store_some w vs :
  vector_store w = Some vs -> get_vector_store w = (Return vs, w).
Proof. intros Hsome. unfold get_vector_store. run_handler. by rewrite Hsome. Qed.

Lemma store_seen_unfold w :
  store_seen w = match vector_store w with
                 | None => Raise (HTTPException 503 "Vector store is not available")
                 | Some vs => Return vs
                 end.
Proof. unfold store_seen, get_vector_store. run_handler. by destruct (vector_store w). Qed.

Lemma store_seen_ext w1 w2 :
  vector_store w1 = vector_store w2 -> store_seen w1 = store_seen w2.
Proof. intros Heq. by rewrite !store_seen_unfold, Heq. Qed.

Lemma post_query_none V q w :
  vector_store w = None ->
  post_query V q w = (Raise (HTTPException 503 "Vector store is not available"), w).
Proof.
  intros Hnone. unfold post_query. unfold mbind at 1, M_bind.
  by rewrite (get_vector_store_none w Hnone).
Qed.

Lemma post_similar_documents_none V q w :
  vector_store w = None ->
  post_similar_documents V q w
  = (Raise (HTTPException 503 "Vector store is not available"), w).
Proof.
  intros Hnone. unfold post_similar_documents. unfold mbind at 1, M_bind.
  by rewrite (get_vector_store_none w Hnone).
Qed.

Lemma post_query_some V q w vs :
  vector_store w = Some vs -> post_query V q w = query_rag V q vs w.
Proof.
  intros Hsome. unfold post_query. unfold mbind at 1, M_bind.
  by rewrite (get_vector_store_some w vs Hsome).
Qed.

(** C7. While no vector store has been built, a query request and a
    similar-documents request are both answered with status 503 by the
    dependency; the state, and with it the log of helper calls, is the one
    before the request, so the Retriever was not called and nothing else
    was raised. *)
Theorem no_store_rejected_with_503 V q w :
  vector_store w = None ->
  post_query V q w = (Raise (HTTPException 503 "Vector store is not available"), w)
  /\ post_similar_documents V q w
     = (Raise (HTTPException 503 "Vector store is not available"), w).
Proof.
  intros Hnone. split; [by apply post_query_none | by apply post_similar_documents_none].
Qed.

(** C9. The health probe answers with the boolean "the global is not
    None" and returns the state it was given: the published store and the
    log of helper calls (hence of builds) are untouched. *)
Theorem health_check_reports_and_preserves w :
  exists loaded : bool,
    health_check w = (Return {| health_status := "healthy";
                                vector_store_loaded := loaded |}, w)
    /\ (loaded = true <-> vector_store w <> None)
    /\ vector_store (snd (health_check w)) = vector_store w
    /\ calls (snd (health_check w)) = calls w.
Proof.
  unfold health_check. run_handler.
  destruct (vector_store w) as [vs|] eqn:Hvs.
  - exists true. repeat split; auto; congruence.
  - exists false. repeat split; auto; congruence.
Qed.

End Availability.

Lemma no_store_rejected_with_503_witness :
  post_query Demo.healthy (Demo.ask None) Demo.cold
  = (Raise (HTTPException 503 "Vector store is not available"), Demo.cold)
  /\ post_similar_documents Demo.healthy (Demo.ask None) Demo.cold
     = (Raise (HTTPException 503 "Vector store is not available"), Demo.cold).
Proof.
  apply (no_store_rejected_with_503 Demo.healthy (Demo.ask None) Demo.cold).
  reflexivity.
Defined.

(** ** Which computations leave the published store alone *)

Section Frame.
Context `{Types}.

Lemma keeps_ret {A} (a : A) : keeps_store (mret a).
Proof. intros w. reflexivity. Qed.

Lemma keeps_raise {A} (e : exn) : keeps_store (@raise _ A e).
Proof. intros w. reflexivity. Qed.

Lemma keeps_lift {A} (r : result A) : keeps_store (lift r).
Proof. intros w. reflexivity. Qed.

Lemma keeps_invoke {A} (c : call) (r : result A) : keeps_store (invoke c r).
Proof. intros w. reflexivity. Qed.

Lemma keeps_print (s : string) : keeps_store (print s).
Proof. intros w. reflexivity. Qed.

Lemma keeps_read : keeps_store read_vector_store.
Proof. intros w. reflexivity. Qed.

Lemma keeps_bind {A B} (m : M A) (k : A -> M B) :
  keeps_store m -> (forall a, keeps_store (k a)) -> keeps_store (m ≫= k).
Proof.
  intros Hm Hk w. unfold mbind, M_bind.
  specialize (Hm w). destruct (m w) as [[a|e] w1]; cbn [snd] in *.
  - rewrite (Hk a w1). exact Hm.
  - exact Hm.
Qed.

Lemma keeps_try {A} (m : M A) (h : exn -> M A) :
  keeps_store m -> (forall e, keeps_store (h e)) -> keeps_store (try_except m h).
Proof.
  intros Hm Hh w. unfold try_except.
  specialize (Hm w). destruct (m w) as [[a|e] w1]; cbn [snd] in *.
  - exact Hm.
  - rewrite (Hh e w1). exact Hm.
Qed.

Lemma keeps_open_wb OS path : keeps_store (open_wb OS path).
Proof. intros w. unfold open_wb. by destruct (open_fault OS path). Qed.

Lemma keeps_copyfileobj OS data path : keeps_store (copyfileobj OS data path).
Proof. intros w. unfold copyfileobj. by destruct (copyfileobj_fault OS). Qed.

Lemma keeps_unlink OS path : keeps_store (unlink OS path).
Proof.
  intros w. unfold unlink.
  destruct (unlink_fault OS path); [done|]. by destruct (files w !! path).
Qed.

End Frame.

Create HintDb frame.
#[export] Hint Resolve keeps_ret keeps_raise keeps_lift keeps_invoke keeps_print
  keeps_read keeps_open_wb keeps_copyfileobj keeps_unlink : frame.

Ltac frame_step :=
  first
    [ apply keeps_bind
    | apply keeps_try
    | solve [auto with frame]
    | match goal with
      | |- keeps_store (match ?x with _ => _ end) => destruct x
      | |- keeps_store (let '(_, _) := ?x in _) => destruct x
      end ].

Ltac frame := repeat (intros; frame_step).

Section FrameHandlers.
Context `{Types}.
Implicit Types (V : vector) (OS : host) (q : Query).

Lemma keeps_get_vector_store : keeps_store get_vector_store.
Proof. unfold get_vector_store. frame. Qed.

Lemma keeps_health_check : keeps_store health_check.
Proof. unfold health_check. frame. Qed.

Lemma keeps_query_rag V q vs : keeps_store (query_rag V q vs).
Proof.
  unfold query_rag, call_retrieve_relevant_documents_with_scores,
    call_generate_response_with_rag. frame.
Qed.

Lemma keeps_get_similar_documents V q vs : keeps_store (get_similar_documents V q vs).
Proof.
  unfold get_similar_documents, call_retrieve_relevant_documents_with_scores. frame.
Qed.

Lemma keeps_post_query V q : keeps_store (post_query V q).
Proof.
  unfold post_query. apply keeps_bind;
    auto using keeps_get_vector_store, keeps_query_rag.
Qed.

Lemma keeps_post_similar_documents V q : keeps_store (post_similar_documents V q).
Proof.
  unfold post_similar_documents. apply keeps_bind;
    auto using keeps_get_vector_store, keeps_get_similar_documents.
Qed.

Lemma keeps_analyze_image V OS upload : keeps_store (analyze_image V OS upload).
Proof. unfold analyze_image, call_analyze_infographic. frame. Qed.

Lemma keeps_submit_feedback V feedback : keeps_store (submit_feedback V feedback).
Proof. unfold submit_feedback, call_save_feedback. frame. Qed.

(** No route other than the refresh assigns the global. *)
Lemma serve_keeps_store (r : request) (w : world) :
  vector_store (serve r w) = vector_store w.
Proof.
  destruct r; cbn [serve].
  - apply keeps_health_check.
  - apply keeps_post_query.
  - apply keeps_post_similar_documents.
  - apply keeps_analyze_image.
  - apply keeps_submit_feedback.
Qed.

End FrameHandlers.

(** ** The refresh operation *)

Section Refresh.
Context `{Types}.
Implicit Types (V : vector) (w : world).

(** The outcome of a refresh, by what the source and the build did. *)
Lemma refresh_vector_store_cases V w :
  refresh_vector_store V w =
  let w1 := add_call Call_fetch_data_from_table w in
  match fetch_data_from_table V with
  | Raise e => (Raise (refresh_failed e), w1)
  | Return [] =>
      (Raise (refresh_failed (HTTPException 404 "No data found in table")), w1)
  | Return docs =>
      let w2 := add_call (Call_create_vector_store_from_sql_data docs embeddings_model_name) w1 in
      match create_vector_store_from_sql_data V docs embeddings_model_name with
      | Raise e => (Raise (refresh_failed e), w2)
      | Return vs =>
          (Return {| refresh_status := "success";
                     refresh_message := "Vector store refreshed successfully";
                     document_count := Z.of_nat (length docs) |},
           set_vector_store (Some vs) w2)
      end
  end.
Proof.
  unfold refresh_vector_store, call_fetch_data_from_table,
    call_create_vector_store_from_sql_data, embeddings_model_name, refresh_failed.
  run_handler.
  destruct (fetch_data_from_table V) as [[|d docs]|e]; cbn; try reflexivity.
  destruct (create_vector_store_from_sql_data V (d :: docs) _) as [vs|e];
    reflexivity.
Qed.

(** Every refresh that fails is reported with status 500. *)
Lemma refresh_failure_is_500 V w :
  raised (fst (refresh_vector_store V w)) ->
  raised_status (fst (refresh_vector_store V w)) = Some 500.
Proof.
  rewrite refresh_vector_store_cases. cbn zeta.
  destruct (fetch_data_from_table V) as [[|d docs]|e]; cbn; try reflexivity.
  destruct (create_vector_store_from_sql_data V (d :: docs) _) as [vs|e]; cbn;
    [contradiction | reflexivity].
Qed.

(** C1. When the source yields no rows the handler raises the 404 inside
    its own [try], the [except Exception] clause of line 116 catches it, and
    the request ends with status 500, the status of every other failure. *)
Theorem refresh_empty_source_reports_500 V w :
  fetch_data_from_table V = Return [] ->
  fst (refresh_vector_store V w)
  = Raise (refresh_failed (HTTPException 404 "No data found in table"))
  /\ raised_status (fst (refresh_vector_store V w)) = Some 500.
Proof.
  intros Hempty. rewrite refresh_vector_store_cases, Hempty. cbn.
  split; reflexivity.
Qed.

(** C10. A refresh that fails leaves the global as it was, so the store
    handed to later requests is the pre-refresh one; and whenever a refresh
    changes the global, the source returned rows, the build returned the
    store now published, and the request succeeded. *)
Theorem failed_refresh_keeps_published_store V w :
  let r := refresh_vector_store V w in
  (raised (fst r) ->
     vector_store (snd r) = vector_store w /\ store_seen (snd r) = store_seen w)
  /\ (vector_store (snd r) <> vector_store w ->
      exists docs vs resp,
        fetch_data_from_table V = Return docs
        /\ create_vector_store_from_sql_data V docs embeddings_model_name = Return vs
        /\ vector_store (snd r) = Some vs
        /\ fst r = Return resp).
Proof.
  cbn zeta. rewrite refresh_vector_store_cases. cbn zeta.
  destruct (fetch_data_from_table V) as [[|d docs]|e]; cbn.
  - split; [intros _; split; [|apply store_seen_ext]; reflexivity
           | intros Hne; contradiction].
  - destruct (create_vector_store_from_sql_data V (d :: docs) _) as [vs|e] eqn:Hb; cbn.
    + split; [intros []|]. intros _. exists (d :: docs), vs. eauto.
    + split; [intros _; split; [|apply store_seen_ext]; reflexivity
             | intros Hne; contradiction].
  - split; [intros _; split; [|apply store_seen_ext]; reflexivity
           | intros Hne; contradiction].
Qed.

End Refresh.

Lemma refresh_empty_source_reports_500_witness :
  fst (refresh_vector_store Demo.empty_table Demo.warm)
  = Raise (refresh_failed (HTTPException 404 "No data found in table"))
  /\ raised_status (fst (refresh_vector_store Demo.empty_table Demo.warm)) = Some 500.
Proof.
  apply (refresh_empty_source_reports_500 Demo.empty_table Demo.warm).
  reflexivity.
Defined.

Lemma failed_refresh_keeps_published_store_witness :
  raised (fst (refresh_vector_store Demo.table_down Demo.warm))
  /\ vector_store (snd (refresh_vector_store Demo.table_down Demo.warm))
     = Some [Demo.scope1; Demo.water]
  /\ store_seen (snd (refresh_vector_store Demo.table_down Demo.warm))
     = Return [Demo.scope1; Demo.water].
Proof.
  split; [exact I|].
  apply (proj1 (failed_refresh_keeps_published_store Demo.table_down Demo.warm)).
  exact I.
Defined.

(** ** A refresh seen from the other requests *)

Section Atomic.
Context `{Types}.
Implicit Types (V : vector) (w : world) (pc : refresh_pc).

(** The line-by-line handler is the handler: six steps from line 105 reach
    [Done] with the outcome and the state of [refresh_vector_store]. *)
Lemma refresh_steps_agree V w :
  refresh_steps V 6 (At_fetch, w)
  = (Done (fst (refresh_vector_store V w)), snd (refresh_vector_store V w)).
Proof.
  rewrite refresh_vector_store_cases. cbn.
  destruct (fetch_data_from_table V) as [[|d docs]|e]; cbn; try reflexivity.
  destruct (create_vector_store_from_sql_data V (d :: docs) _) as [vs|e];
    reflexivity.
Qed.

(** What holds of the global at each line of a refresh started in [w0]. *)
Lemma refresh_invariant V w0 (c : refresh_pc * world) :
  rtc (sys_step V) (At_fetch, w0) c ->
  match fst c with
  | At_fetch | At_except _ | Done (Raise _) =>
      vector_store (snd c) = vector_store w0
  | At_check docs | At_build docs =>
      vector_store (snd c) = vector_store w0
      /\ fetch_data_from_table V = Return docs
  | At_assign docs vs =>
      vector_store (snd c) = vector_store w0
      /\ fetch_data_from_table V = Return docs
      /\ create_vector_store_from_sql_data V docs embeddings_model_name = Return vs
  | At_return _ | Done (Return _) =>
      exists docs vs,
        fetch_data_from_table V = Return docs
        /\ create_vector_store_from_sql_data V docs embeddings_model_name = Return vs
        /\ vector_store (snd c) = Some vs
  end.
Proof.
  intros Hreach. apply rtc_nsteps in Hreach as [n Hn].
  revert c Hn. induction n as [|n IH]; intros c Hn.
  - inversion Hn; subst. reflexivity.
  - apply nsteps_inv_r in Hn as [[pc w] [Hprev Hstep]].
    specialize (IH _ Hprev). cbn [fst snd] in IH.
    inversion Hstep as [pc' w' | pc' w' r]; subst.
    + destruct pc as [|docs|docs|docs vs|docs|e|[resp|e]]; cbn [refresh_step].
      * destruct (fetch_data_from_table V) as [docs|e] eqn:Hf; cbn; auto.
      * destruct IH as [Hst Hf]. destruct docs; cbn; auto.
      * destruct IH as [Hst Hf].
        destruct (create_vector_store_from_sql_data V docs _) as [vs|e] eqn:Hb;
          cbn; auto.
      * destruct IH as (Hst & Hf & Hb). cbn. eauto.
      * cbn. exact IH.
      * cbn. exact IH.
      * cbn. exact IH.
      * cbn. exact IH.
    + cbn [fst snd]. rewrite serve_keeps_store. exact IH.
Qed.

(** C8. Started in a state publishing [vector_store w0] and interleaved
    line by line with any other requests, a refresh shows them the
    pre-refresh reference at every line up to the assignment of line 110,
    and from that assignment on the reference returned by the completed
    build; the dependency of a request therefore hands over one of these two
    stores, whole.  The line-by-line run and [refresh_vector_store] end in
    the same outcome and state. *)
Theorem refresh_publishes_atomically V w0 :
  refresh_steps V 6 (At_fetch, w0)
  = (Done (fst (refresh_vector_store V w0)), snd (refresh_vector_store V w0))
  /\ forall pc w,
       rtc (sys_step V) (At_fetch, w0) (pc, w) ->
       match pc with
       | At_return _ | Done (Return _) =>
           exists docs vs,
             fetch_data_from_table V = Return docs
             /\ create_vector_store_from_sql_data V docs embeddings_model_name
                = Return vs
             /\ vector_store w = Some vs
             /\ store_seen w = Return vs
       | _ => vector_store w = vector_store w0 /\ store_seen w = store_seen w0
       end.
Proof.
  split; [apply refresh_steps_agree|].
  intros pc w Hreach. pose proof (refresh_invariant V w0 _ Hreach) as Hinv.
  cbn [fst snd] in Hinv.
  destruct pc as [|docs|docs|docs vs|docs|e|[resp|e]].
  - split; [exact Hinv | by apply store_seen_ext].
  - destruct Hinv as [Hst _]. split; [exact Hst | by apply store_seen_ext].
  - destruct Hinv as [Hst _]. split; [exact Hst | by apply store_seen_ext].
  - destruct Hinv as [Hst _]. split; [exact Hst | by apply store_seen_ext].
  - destruct Hinv as (ds & vs & Hf & Hb & Hst). exists ds, vs.
    repeat split; auto. by rewrite store_seen_unfold, Hst.
  - split; [exact Hinv | by apply store_seen_ext].
  - destruct Hinv as (ds & vs & Hf & Hb & Hst). exists ds, vs.
    repeat split; auto. by rewrite store_seen_unfold, Hst.
  - split; [exact Hinv | by apply store_seen_ext].
Qed.

End Atomic.

Lemma refresh_publishes_atomically_witness :
  vector_store (serve (POST_query Demo.healthy (Demo.ask None))
                  (snd (refresh_step Demo.healthy At_fetch Demo.warm)))
  = vector_store Demo.warm
  /\ store_seen (serve (POST_query Demo.healthy (Demo.ask None))
                   (snd (refresh_step Demo.healthy At_fetch Demo.warm)))
     = store_seen Demo.warm.
Proof.
  apply (proj2 (refresh_publishes_atomically Demo.healthy Demo.warm)
           (@At_check Demo.demo_types [Demo.scope1; Demo.water])).
  eapply rtc_l; [apply (step_refresh Demo.healthy At_fetch Demo.warm)|].
  eapply rtc_l; [|apply rtc_refl].
  apply (step_request Demo.healthy (@At_check Demo.demo_types [Demo.scope1; Demo.water]) _
           (POST_query Demo.healthy (Demo.ask None))).
Defined.

(** ** The query route *)

Section QueryRoute.
Context `{Types}.
Implicit Types (V : vector) (w : world) (q : Query) (vs : Store).

(** The outcome of [query_rag], by what the helpers did. *)
Lemma query_rag_cases V q vs w :
  query_rag V q vs w =
  let w1 := add_call
              (Call_retrieve_relevant_documents_with_scores (text q) vs (top_k q)) w in
  match retrieve_relevant_documents_with_scores V (text q) vs (top_k q) with
  | Raise e => (Raise (generation_failed e), w1)
  | Return (docs, scores) =>
      let w2 := add_call
                  (Call_generate_response_with_rag (modified_query_of q) vs (model q)) w1 in
      match generate_response_with_rag V (modified_query_of q) vs (model q) with
      | Raise e => (Raise (generation_failed e), w2)
      | Return response =>
          match collect_sources 0 docs scores [] with
          | Raise e => (Raise (generation_failed e), w2)
          | Return srcs =>
              (Return {| answer := message_content response; sources := Some srcs |}, w2)
          end
      end
  end.
Proof.
  unfold query_rag, call_retrieve_relevant_documents_with_scores,
    call_generate_response_with_rag, generation_failed.
  run_handler.
  destruct (retrieve_relevant_documents_with_scores V _ _ _) as [[docs scores]|e];
    cbn; [|reflexivity].
  destruct (generate_response_with_rag V _ _ _) as [response|e]; cbn; [|reflexivity].
  destruct (collect_sources 0 docs scores []) as [srcs|e]; reflexivity.
Qed.

Lemma new_calls_app w w' cs : calls w' = calls w ++ cs -> new_calls w w' = cs.
Proof. intros Heq. unfold new_calls. rewrite Heq. apply drop_app_length. Qed.

(** Once the Retriever has returned, the handler makes exactly one more
    call: the generation call, on the modified query, the store and the
    model of the request. *)
Lemma query_rag_log V q vs w docs scores :
  retrieve_relevant_documents_with_scores V (text q) vs (top_k q) = Return (docs, scores) ->
  calls (snd (query_rag V q vs w))
  = calls w ++ [Call_retrieve_relevant_documents_with_scores (text q) vs (top_k q);
                Call_generate_response_with_rag (modified_query_of q) vs (model q)].
Proof.
  intros Hret. rewrite query_rag_cases, Hret. cbn zeta.
  destruct (generate_response_with_rag V _ _ _) as [response|e]; cbn;
    [destruct (collect_sources 0 docs scores []) as [srcs|e]; cbn|];
    by rewrite <- app_assoc.
Qed.

(** The loop pairs the documents with the scores at the same positions, in
    the order of the documents. *)
Lemma collect_sources_returns docs : forall i scores acc srcs,
  collect_sources i docs scores acc = Return srcs ->
  srcs = acc ++ zip_with source_of docs (drop i scores)
  /\ (length docs <= length (drop i scores))%nat.
Proof.
  induction docs as [|d docs IH]; intros i scores acc srcs Hc; cbn in Hc.
  - inversion Hc; subst. cbn. rewrite app_nil_r. split; [reflexivity | lia].
  - destruct (scores !! i) as [s|] eqn:Hs; [|discriminate].
    apply IH in Hc as [-> Hlen].
    rewrite (drop_S _ _ _ Hs). cbn. rewrite <- app_assoc. split; [reflexivity | lia].
Qed.

(** The loop returns as soon as there is a score for every document. *)
Lemma collect_sources_total docs : forall i scores acc,
  (i + length docs <= length scores)%nat ->
  collect_sources i docs scores acc
  = Return (acc ++ zip_with source_of docs (drop i scores)).
Proof.
  induction docs as [|d docs IH]; intros i scores acc Hlen; cbn in *.
  - by rewrite app_nil_r.
  - destruct (scores !! i) as [s|] eqn:Hs.
    + rewrite IH by lia. rewrite (drop_S _ _ _ Hs). cbn. by rewrite <- app_assoc.
    + apply lookup_ge_None in Hs. lia.
Qed.

Lemma modified_query_of_cases q :
  modified_query_of q =
  if bool_decide (language q = Some "Français")
  then instruction_fr +:+ newline +:+ newline +:+ text q
  else if bool_decide (language q = Some "Arabic")
       then instruction_ar +:+ newline +:+ newline +:+ text q
       else text q.
Proof.
  unfold modified_query_of, system_instruction_for.
  repeat case_bool_decide; reflexivity.
Qed.

End QueryRoute.

Section QueryClaims.
Context `{Types}.
Implicit Types (V : vector) (w : world) (q : Query) (vs : Store).

(** C2, as the code has it.  Once the Retriever has returned [docs] and
    [scores] to the handler, the only further call is the generation call,
    and its arguments are the modified query, the store and the model
    selector: none of them is built from [docs] or [scores].  What the
    handler does with the retrieved results is to return them, in the order
    the Retriever produced them and each with the score at its position, as
    the sources of the answer. *)
Theorem generation_call_takes_store_not_results V q vs w docs scores :
  retrieve_relevant_documents_with_scores V (text q) vs (top_k q) = Return (docs, scores) ->
  new_calls w (snd (query_rag V q vs w))
  = [Call_retrieve_relevant_documents_with_scores (text q) vs (top_k q);
     Call_generate_response_with_rag (modified_query_of q) vs (model q)]
  /\ forall r,
       fst (query_rag V q vs w) = Return r ->
       sources r = Some (zip_with source_of docs scores)
       /\ (length docs <= length scores)%nat.
Proof.
  intros Hret. split.
  - apply new_calls_app. by apply query_rag_log with (docs := docs) (scores := scores).
  - intros r Hr. rewrite query_rag_cases, Hret in Hr. cbn zeta in Hr.
    destruct (generate_response_with_rag V _ _ _) as [response|e]; [|discriminate].
    destruct (collect_sources 0 docs scores []) as [srcs|e] eqn:Hc; [|discriminate].
    apply collect_sources_returns in Hc as [-> Hlen]. rewrite drop_0 in *.
    cbn in Hr. inversion Hr; subst. cbn. auto.
Qed.

(** C3, as the code has it.  The prompt of the generation call is the
    French instruction, a blank line and the query text when the language
    tag is "Français"; the Arabic instruction, a blank line and the query
    text when it is "Arabic"; and the query text itself for every other
    tag, null included. *)
Theorem language_instruction_prefix V q vs w docs scores :
  retrieve_relevant_documents_with_scores V (text q) vs (top_k q) = Return (docs, scores) ->
  generation_prompts (new_calls w (snd (query_rag V q vs w)))
  = [ if bool_decide (language q = Some "Français")
      then instruction_fr +:+ newline +:+ newline +:+ text q
      else if bool_decide (language q = Some "Arabic")
           then instruction_ar +:+ newline +:+ newline +:+ text q
           else text q ].
Proof.
  intros Hret.
  rewrite (new_calls_app w _ _ (query_rag_log V q vs w docs scores Hret)).
  cbn. by rewrite modified_query_of_cases.
Qed.

(** C4. Two query requests with the same text and [top_k], served from
    states publishing the same store, call the Retriever with the same
    arguments whatever their language tags; when both are answered their
    sources are equal, and when one is answered the other is answered with
    the same sources as soon as its own generation call returns. *)
Theorem language_does_not_alter_sources V q1 q2 w1 w2 :
  text q1 = text q2 ->
  top_k q1 = top_k q2 ->
  vector_store w1 = vector_store w2 ->
  (forall r1 r2,
     fst (post_query V q1 w1) = Return r1 ->
     fst (post_query V q2 w2) = Return r2 ->
     sources r1 = sources r2)
  /\ (forall vs r1 m2,
        vector_store w2 = Some vs ->
        fst (post_query V q1 w1) = Return r1 ->
        generate_response_with_rag V (modified_query_of q2) vs (model q2) = Return m2 ->
        fst (post_query V q2 w2)
        = Return {| answer := message_content m2; sources := sources r1 |})
  /\ (forall vs,
        vector_store w2 = Some vs ->
        exists c rest1 rest2,
          c = Call_retrieve_relevant_documents_with_scores (text q1) vs (top_k q1)
          /\ new_calls w1 (snd (post_query V q1 w1)) = c :: rest1
          /\ new_calls w2 (snd (post_query V q2 w2)) = c :: rest2).
Proof.
  intros Htext Hk Hst.
  destruct (vector_store w2) as [vs|] eqn:Hw2.
  - rewrite (post_query_some V q1 w1 vs Hst), (post_query_some V q2 w2 vs Hw2).
    rewrite !query_rag_cases, <- Htext, <- Hk. cbn zeta.
    destruct (retrieve_relevant_documents_with_scores V (text q1) vs (top_k q1))
      as [[docs scores]|e].
    + repeat split.
      * intros r1 r2 H1 H2.
        destruct (generate_response_with_rag V (modified_query_of q1) _ _); [|discriminate].
        destruct (generate_response_with_rag V (modified_query_of q2) _ _); [|discriminate].
        destruct (collect_sources 0 docs scores []); [|discriminate].
        cbn in *. by inversion H1; inversion H2; subst.
      * intros vs' r1 m2 Hvs' H1 Hgen. inversion Hvs'; subst vs'. rewrite Hgen.
        destruct (generate_response_with_rag V (modified_query_of q1) _ _); [|discriminate].
        destruct (collect_sources 0 docs scores []); [|discriminate].
        cbn in *. by inversion H1; subst.
      * intros vs' Hvs'. inversion Hvs'; subst vs'.
        do 3 eexists. split; [reflexivity|].
        split; apply new_calls_app.
        -- destruct (generate_response_with_rag V (modified_query_of q1) _ _); cbn;
             [destruct (collect_sources 0 docs scores []); cbn|];
             rewrite <- app_assoc; reflexivity.
        -- destruct (generate_response_with_rag V (modified_query_of q2) _ _); cbn;
             [destruct (collect_sources 0 docs scores []); cbn|];
             rewrite <- app_assoc; reflexivity.
    + repeat split.
      * intros r1 r2 H1; discriminate.
      * intros vs' r1 m2 _ H1; discriminate.
      * intros vs' Hvs'. inversion Hvs'; subst vs'.
        do 3 eexists. split; [reflexivity|]. split; apply new_calls_app; reflexivity.
  - repeat split.
    + intros r1 r2 H1.
      rewrite (post_query_none V q1 w1 Hst) in H1. discriminate.
    + intros vs; discriminate.
    + intros vs; discriminate.
Qed.

End QueryClaims.

Lemma generation_call_takes_store_not_results_witness :
  new_calls Demo.warm
    (snd (query_rag Demo.healthy (Demo.ask None) Demo.index Demo.warm))
  = [Call_retrieve_relevant_documents_with_scores
       (text (Demo.ask None)) Demo.index (Some 2);
     Call_generate_response_with_rag
       (modified_query_of (Demo.ask None)) Demo.index (Some "gemini-pro")]
  /\ forall r,
       fst (query_rag Demo.healthy (Demo.ask None) Demo.index Demo.warm)
       = Return r ->
       sources r = Some (zip_with source_of Demo.hits Demo.hit_scores)
       /\ (length Demo.hits <= length Demo.hit_scores)%nat.
Proof.
  apply (generation_call_takes_store_not_results Demo.healthy (Demo.ask None)
           Demo.index Demo.warm
           Demo.hits Demo.hit_scores).
  reflexivity.
Defined.

(** C2, as stated, fails.  With the same store, query and generator, a
    Retriever that returns the two documents most relevant first and one
    that returns them least relevant first lead to the same generation call,
    while the two concatenations differ: no reading of a grounding context
    off the generation call gives the concatenation of the retrieved
    results in both runs. *)
Lemma generation_call_does_not_consume_retrieved :
  ~ exists ctx,
      consumes_retrieved ctx Demo.healthy (Demo.ask None)
        Demo.index Demo.warm
      /\ consumes_retrieved ctx Demo.reversed_retriever (Demo.ask None)
           Demo.index Demo.warm.
Proof.
  intros (ctx & Hfwd & Hrev).
  destruct (Hfwd Demo.hits Demo.hit_scores eq_refl)
    as (c1 & Hc1 & Hctx1).
  destruct (Hrev (reverse Demo.hits) (reverse Demo.hit_scores) eq_refl)
    as (c2 & Hc2 & Hctx2).
  vm_compute in Hc1, Hc2. rewrite Hc1 in Hc2. inversion Hc2; subst c2.
  rewrite Hctx1 in Hctx2. vm_compute in Hctx2. discriminate.
Qed.

Lemma language_instruction_prefix_witness :
  generation_prompts
    (new_calls Demo.warm
       (snd (query_rag Demo.healthy (Demo.ask (Some "Français"))
               Demo.index Demo.warm)))
  = [ instruction_fr +:+ newline +:+ newline +:+ "What happened to Scope 1 emissions?" ].
Proof.
  apply (language_instruction_prefix Demo.healthy (Demo.ask (Some "Français"))
           Demo.index Demo.warm
           Demo.hits Demo.hit_scores).
  reflexivity.
Defined.

(** C3, as stated, fails.  A request tagged "French" reaches the generator
    with the bare query text: the tag the handler compares with is
    "Français". *)
Lemma french_tag_is_not_prefixed :
  generation_prompts
    (new_calls Demo.warm
       (snd (post_query Demo.healthy (Demo.ask (Some "French")) Demo.warm)))
  = [ "What happened to Scope 1 emissions?" ]
  /\ generation_prompts
       (new_calls Demo.warm
          (snd (post_query Demo.healthy (Demo.ask (Some "French")) Demo.warm)))
     <> [ instruction_fr +:+ newline +:+ newline +:+ "What happened to Scope 1 emissions?" ].
Proof. split; [reflexivity | vm_compute; discriminate]. Qed.

Lemma language_does_not_alter_sources_witness :
  fst (post_query Demo.healthy (Demo.ask (Some "English")) Demo.warm)
  = Return {| answer := "Answer to: What happened to Scope 1 emissions?";
              sources := Some (zip_with source_of Demo.hits Demo.hit_scores) |}.
Proof.
  apply (proj1 (proj2 (language_does_not_alter_sources Demo.healthy
                         (Demo.ask (Some "Français")) (Demo.ask (Some "English"))
                         Demo.warm Demo.warm eq_refl eq_refl eq_refl))
           Demo.index
           {| answer := "Answer to: " +:+ modified_query_of (Demo.ask (Some "Français"));
              sources := Some (zip_with source_of Demo.hits Demo.hit_scores) |}
           {| message_content := "Answer to: What happened to Scope 1 emissions?" |});
    reflexivity.
Defined.

(** ** Defaults of the query model *)

(** C6, as the code has it.  A field left out of the body takes the default
    of the class: [top_k] is 3, [model] is "gemini-pro", [language] is
    "English"; and with the default language the prompt is the query text,
    no instruction is injected. *)
Theorem query_defaults (b : QueryBody) :
  (body_top_k b = Omitted -> top_k (Query_of_body b) = Some 3)
  /\ (body_model b = Omitted -> model (Query_of_body b) = Some "gemini-pro")
  /\ (body_language b = Omitted ->
      language (Query_of_body b) = Some "English"
      /\ modified_query_of (Query_of_body b) = body_text b).
Proof.
  unfold Query_of_body, modified_query_of. cbn.
  split; [|split].
  - by intros ->.
  - by intros ->.
  - intros ->. split; reflexivity.
Qed.

Lemma query_defaults_witness :
  let q := Query_of_body (mkQueryBody "What is ESG?" Omitted Omitted Omitted) in
  top_k q = Some 3 /\ model q = Some "gemini-pro"
  /\ language q = Some "English" /\ modified_query_of q = "What is ESG?".
Proof.
  pose proof (query_defaults (mkQueryBody "What is ESG?" Omitted Omitted Omitted))
    as (Hk & Hm & Hl).
  cbn zeta. split; [apply Hk; reflexivity|].
  split; [apply Hm; reflexivity|]. apply Hl; reflexivity.
Defined.

(** C6, as stated, fails.  A body that gives only the text yields the model
    "gemini-pro" and the language "English", not "default" and "none". *)
Lemma query_defaults_are_not_default_none :
  let q := Query_of_body (mkQueryBody "What is ESG?" Omitted Omitted Omitted) in
  ~ (top_k q = Some 3 /\ model q = Some "default" /\ language q = Some "none").
Proof. cbn. intros (_ & Hm & _). discriminate. Qed.

(** ** The image route *)

Section Image.
Context `{Types}.
Implicit Types (V : vector) (OS : host) (w : world).

(** X13. When the insight is extracted and the unlink meets no fault, the
    answer carries the insight and the temporary file is gone when the
    request returns. *)
Lemma analyze_image_releases_on_success V OS upload w name text_out :
  filename upload = Some name ->
  open_fault OS (upload_path OS name) = None ->
  copyfileobj_fault OS = None ->
  unlink_fault OS (upload_path OS name) = None ->
  analyze_infographic V (upload_path OS name) = Return text_out ->
  fst (analyze_image V OS upload w) = Return {| insights := text_out |}
  /\ files (snd (analyze_image V OS upload w)) !! upload_path OS name = None.
Proof.
  intros Hname Hopen Hcopy Hunlink Hvision.
  unfold upload_path in *. set (p := path_join _ _) in *.
  unfold analyze_image, call_analyze_infographic, open_wb, copyfileobj, unlink.
  rewrite Hname. run_handler. fold p.
  rewrite Hopen, Hcopy, Hvision, Hunlink. cbn.
  rewrite lookup_insert_eq. cbn. split; [reflexivity | apply lookup_delete_eq].
Qed.

(** C5 fails on the code.  When the vision call raises, control leaves the
    [try] body before the unlink of line 191: the request ends with status
    500 and the temporary file is still in the upload directory, holding the
    uploaded bytes. *)
Theorem analyze_image_keeps_file_when_vision_fails V OS upload w name e :
  filename upload = Some name ->
  open_fault OS (upload_path OS name) = None ->
  copyfileobj_fault OS = None ->
  analyze_infographic V (upload_path OS name) = Raise e ->
  fst (analyze_image V OS upload w)
  = Raise (HTTPException 500 ("Error analyzing image: " +:+ str e))
  /\ files (snd (analyze_image V OS upload w)) !! upload_path OS name
     = Some (file upload).
Proof.
  intros Hname Hopen Hcopy Hvision.
  unfold upload_path in *. set (p := path_join _ _) in *.
  unfold analyze_image, call_analyze_infographic, open_wb, copyfileobj.
  rewrite Hname. run_handler. fold p.
  rewrite Hopen, Hcopy, Hvision. cbn.
  split; [reflexivity | apply lookup_insert_eq].
Qed.

End Image.

Lemma analyze_image_keeps_file_when_vision_fails_witness :
  fst (analyze_image Demo.vision_down Demo.quiet_host Demo.chart Demo.cold)
  = Raise (HTTPException 500 "Error analyzing image: vision provider timed out")
  /\ files (snd (analyze_image Demo.vision_down Demo.quiet_host Demo.chart Demo.cold))
       !! "uploads/5f0c7c1e-3b7a-4d4e-9a51-0c2f6d1b8e77.png"
     = Some "PNG-bytes".
Proof.
  apply (analyze_image_keeps_file_when_vision_fails Demo.vision_down Demo.quiet_host
           Demo.chart Demo.cold "chart.png"
           (Error "ServiceUnavailable" "vision provider timed out"));
    reflexivity.
Defined.

(** The file left behind by the failed request stays until the application
    shuts down: the sweep of lines 67-74 is what removes it. *)
Example leftover_swept_at_shutdown :
  let after_request :=
    snd (analyze_image Demo.vision_down Demo.quiet_host Demo.chart Demo.cold) in
  listdir UPLOAD_DIR (files after_request) = ["5f0c7c1e-3b7a-4d4e-9a51-0c2f6d1b8e77.png"]
  /\ files (snd (lifespan_shutdown Demo.quiet_host after_request)) = ∅.
Proof. split; vm_compute; reflexivity. Qed.

(** * Further properties of the handlers *)

(** ** Start-up *)

Section Startup.
Context `{Types}.
Implicit Types (V : vector) (w : world) (q : Query).

(** The outcome of the start-up, by what the source and the build did. *)
Lemma lifespan_startup_cases V w :
  lifespan_startup V w =
  let w1 := add_call Call_fetch_data_from_table
              (add_stdout "Loading data from Cloud SQL..." w) in
  match fetch_data_from_table V with
  | Raise e => (Return tt, add_stdout (startup_failed e) w1)
  | Return [] => (Return tt, add_stdout "No data found in table." w1)
  | Return docs =>
      let w2 := add_call (Call_create_vector_store_from_sql_data docs embeddings_model_name)
                  (add_stdout "Creating/loading FAISS index..." w1) in
      match create_vector_store_from_sql_data V docs embeddings_model_name with
      | Raise e => (Return tt, add_stdout (startup_failed e) w2)
      | Return vs =>
          (Return tt,
           add_stdout "Vector store loaded successfully" (set_vector_store (Some vs) w2))
      end
  end.
Proof.
  unfold lifespan_startup, call_fetch_data_from_table,
    call_create_vector_store_from_sql_data, embeddings_model_name, startup_failed.
  run_handler.
  destruct (fetch_data_from_table V) as [[|d docs]|e]; cbn; try reflexivity.
  destruct (create_vector_store_from_sql_data V (d :: docs) _) as [vs|e];
    reflexivity.
Qed.


(** X2. An application started without a store on an empty table, a failing
    source or a failing build is up but has no store: the failure is only
    printed, every query and similar-documents request is answered 503, and
    the health probe reports that no store is loaded. *)
Theorem startup_without_data_serves_503 V w :
  vector_store w = None ->
  (fetch_data_from_table V = Return []
   \/ (exists e, fetch_data_from_table V = Raise e)
   \/ (exists docs e,
         fetch_data_from_table V = Return docs
         /\ create_vector_store_from_sql_data V docs embeddings_model_name = Raise e)) ->
  let w' := snd (lifespan_startup V w) in
  (forall V' q,
     fst (post_query V' q w') = Raise (HTTPException 503 "Vector store is not available")
     /\ fst (post_similar_documents V' q w')
        = Raise (HTTPException 503 "Vector store is not available"))
  /\ vector_store_loaded <$> fst_value (health_check w') = Some false.
Proof.
  intros Hcold Hfail. cbn zeta.
  assert (Hstill : vector_store (snd (lifespan_startup V w)) = None).
  { rewrite lifespan_startup_cases. cbn zeta.
    destruct Hfail as [Hf | [[e Hf] | (docs & e & Hf & Hb)]]; rewrite Hf; cbn; auto.
    destruct docs as [|d docs]; cbn; auto. rewrite Hb. cbn. auto. }
  split.
  - intros V' q. by rewrite (post_query_none V' q _ Hstill),
      (post_similar_documents_none V' q _ Hstill).
  - unfold health_check. run_handler. by rewrite Hstill.
Qed.

(** X3. After a start-up whose source returned rows and whose build
    returned [vs], a query request enters its handler with [vs] and the
    health probe reports a loaded store. *)
Theorem startup_then_query_uses_built_store V w docs vs :
  fetch_data_from_table V = Return docs ->
  docs <> [] ->
  create_vector_store_from_sql_data V docs embeddings_model_name = Return vs ->
  let w' := snd (lifespan_startup V w) in
  (forall V' q, post_query V' q w' = query_rag V' q vs w')
  /\ vector_store_loaded <$> fst_value (health_check w') = Some true.
Proof.
  intros Hf Hne Hb. cbn zeta.
  assert (Hnow : vector_store (snd (lifespan_startup V w)) = Some vs).
  { rewrite lifespan_startup_cases, Hf. cbn zeta.
    destruct docs as [|d docs]; [done|]. by rewrite Hb. }
  split.
  - intros V' q. by apply post_query_some.
  - unfold health_check. run_handler. by rewrite Hnow.
Qed.

End Startup.

Lemma startup_without_data_serves_503_witness :
  fst (post_query Demo.healthy (Demo.ask None)
         (snd (lifespan_startup Demo.table_down Demo.cold)))
  = Raise (HTTPException 503 "Vector store is not available").
Proof.
  refine (proj1 (proj1 (startup_without_data_serves_503 Demo.table_down Demo.cold
                          eq_refl _) Demo.healthy (Demo.ask None))).
  right; left. eexists. reflexivity.
Defined.

Lemma startup_then_query_uses_built_store_witness :
  post_query Demo.healthy (Demo.ask None) (snd (lifespan_startup Demo.healthy Demo.cold))
  = query_rag Demo.healthy (Demo.ask None) Demo.index
      (snd (lifespan_startup Demo.healthy Demo.cold)).
Proof.
  refine (proj1 (startup_then_query_uses_built_store Demo.healthy Demo.cold
                   [Demo.scope1; Demo.water] Demo.index eq_refl _ eq_refl)
            Demo.healthy (Demo.ask None)).
  discriminate.
Defined.

(** ** More on the refresh *)

Section RefreshMore.
Context `{Types}.
Implicit Types (V : vector) (w : world) (q : Query).


(** X5. A refresh asks the source exactly once and first; it calls the
    build, once, with the rows of the source and the embedding model
    "textembedding-gecko@latest", exactly when the source returned at least
    one row, and makes no other helper call. *)
Theorem refresh_helper_calls V w :
  new_calls w (snd (refresh_vector_store V w))
  = match fetch_data_from_table V with
    | Return (d :: docs) =>
        [Call_fetch_data_from_table;
         Call_create_vector_store_from_sql_data (d :: docs) "textembedding-gecko@latest"]
    | _ => [Call_fetch_data_from_table]
    end.
Proof.
  apply new_calls_app. rewrite refresh_vector_store_cases. cbn zeta.
  destruct (fetch_data_from_table V) as [[|d docs]|e]; cbn; try reflexivity.
  destruct (create_vector_store_from_sql_data V (d :: docs) _) as [vs|e]; cbn;
    by rewrite <- app_assoc.
Qed.

End RefreshMore.


(** ** More on the query and similar-documents routes *)

Section QueryMore.
Context `{Types}.
Implicit Types (V : vector) (w : world) (q : Query) (vs : Store).

(** The loop, by whether there is a score for every document. *)
Lemma collect_sources_cases (docs : list RetrievedDoc) (scores : list float) :
  collect_sources 0 docs scores []
  = if decide (length docs <= length scores)%nat
    then Return (zip_with source_of docs scores)
    else Raise (Error "IndexError" "list index out of range").
Proof.
  case_decide as Hlen.
  - rewrite collect_sources_total by lia. by rewrite drop_0.
  - assert (Hgen : forall ds i acc,
              (i <= length scores < i + length ds)%nat ->
              collect_sources i ds scores acc
              = Raise (Error "IndexError" "list index out of range")).
    { induction ds as [|d ds IH]; intros i acc Hlt; cbn [collect_sources length] in *.
      - lia.
      - destruct (scores !! i) as [s|] eqn:Hs; [|reflexivity].
        apply IH. apply lookup_lt_Some in Hs. lia. }
    apply Hgen. lia.
Qed.

(** X6. The loop over the retrieved documents returns exactly when there is
    a score for every document.  It then yields one entry per document, in
    the order of the documents, each with the score at its position, and
    ignores the scores past the last document.  With fewer scores than
    documents it raises [IndexError]. *)
Theorem sources_loop_needs_a_score_per_document
    (docs : list RetrievedDoc) (scores : list float) :
  ((length docs <= length scores)%nat ->
     collect_sources 0 docs scores []
     = Return (zip_with source_of docs (take (length docs) scores))
     /\ content <$> zip_with source_of docs scores = page_content <$> docs)
  /\ ((length scores < length docs)%nat ->
      collect_sources 0 docs scores []
      = Raise (Error "IndexError" "list index out of range")).
Proof.
  rewrite collect_sources_cases. split; intros Hlen.
  - rewrite decide_True by done. split.
    + f_equal. clear Hlen. revert scores.
      induction docs as [|d docs IH]; intros [|s scores]; cbn; try done.
      by rewrite <- IH.
    + revert scores Hlen.
      induction docs as [|d docs IH]; intros [|s scores] Hlen; cbn in *;
        try done; try lia.
      f_equal. apply IH. lia.
  - rewrite decide_False by lia. reflexivity.
Qed.

(** The outcome of [get_similar_documents], by what the Retriever did. *)
Lemma get_similar_documents_cases V q vs w :
  get_similar_documents V q vs w =
  let w1 := add_call
              (Call_retrieve_relevant_documents_with_scores (text q) vs (top_k q)) w in
  match retrieve_relevant_documents_with_scores V (text q) vs (top_k q) with
  | Raise e => (Raise (search_failed e), w1)
  | Return (docs, scores) =>
      match collect_sources 0 docs scores [] with
      | Raise e => (Raise (search_failed e), w1)
      | Return ds => (Return {| similar_status := "success"; documents := ds |}, w1)
      end
  end.
Proof.
  unfold get_similar_documents, call_retrieve_relevant_documents_with_scores,
    search_failed.
  run_handler.
  destruct (retrieve_relevant_documents_with_scores V _ _ _) as [[docs scores]|e];
    cbn; [|reflexivity].
  destruct (collect_sources 0 docs scores []) as [ds|e]; reflexivity.
Qed.

(** X7. A query is answered exactly when the Retriever returned, the
    generator returned on the modified query, and there is a score for every
    retrieved document; the answer is then the generator's text with the
    retrieved documents as sources. *)
Theorem query_rag_answers_iff V q vs w r :
  fst (query_rag V q vs w) = Return r
  <-> exists docs scores response,
        retrieve_relevant_documents_with_scores V (text q) vs (top_k q)
        = Return (docs, scores)
        /\ generate_response_with_rag V (modified_query_of q) vs (model q)
           = Return response
        /\ (length docs <= length scores)%nat
        /\ r = {| answer := message_content response;
                  sources := Some (zip_with source_of docs scores) |}.
Proof.
  rewrite query_rag_cases. cbn zeta. split.
  - destruct (retrieve_relevant_documents_with_scores V _ _ _)
      as [[docs scores]|e]; [|discriminate].
    destruct (generate_response_with_rag V _ _ _) as [response|e]; [|discriminate].
    rewrite collect_sources_cases. case_decide as Hlen; [|discriminate].
    cbn. intros Hr. inversion Hr; subst. eauto 8.
  - intros (docs & scores & response & -> & -> & Hlen & ->).
    rewrite collect_sources_cases. by rewrite decide_True.
Qed.

(** X8. When the Retriever raises, the generator is not called: the request
    ends with status 500 after the retrieval call alone. *)
Theorem retrieval_failure_skips_generation V q vs w e :
  retrieve_relevant_documents_with_scores V (text q) vs (top_k q) = Raise e ->
  fst (query_rag V q vs w) = Raise (generation_failed e)
  /\ new_calls w (snd (query_rag V q vs w))
     = [Call_retrieve_relevant_documents_with_scores (text q) vs (top_k q)].
Proof.
  intros Hret. rewrite query_rag_cases, Hret. cbn.
  split; [reflexivity | by apply new_calls_app].
Qed.

(** X9. The similar-documents handler reads only the text and [top_k] of
    the request: two requests that differ in model and language have the
    same outcome.  It makes one helper call, to the Retriever, and never
    calls the generator. *)
Theorem similar_documents_ignores_model_and_language V q1 q2 vs w :
  text q1 = text q2 ->
  top_k q1 = top_k q2 ->
  get_similar_documents V q1 vs w = get_similar_documents V q2 vs w
  /\ new_calls w (snd (get_similar_documents V q1 vs w))
     = [Call_retrieve_relevant_documents_with_scores (text q1) vs (top_k q1)].
Proof.
  intros Htext Hk. rewrite !get_similar_documents_cases, <- Htext, <- Hk.
  split; [reflexivity|]. apply new_calls_app. cbn zeta.
  destruct (retrieve_relevant_documents_with_scores V _ _ _) as [[docs scores]|e];
    [destruct (collect_sources 0 docs scores []) as [ds|e]|]; reflexivity.
Qed.


(** X11. The similar-documents route works without the generator: it
    answers whenever the Retriever returned a score for every document,
    also when the generator would raise on that request. *)
Theorem similar_documents_answers_without_generator V q vs w docs scores :
  retrieve_relevant_documents_with_scores V (text q) vs (top_k q) = Return (docs, scores) ->
  (length docs <= length scores)%nat ->
  fst (get_similar_documents V q vs w)
  = Return {| similar_status := "success";
              documents := zip_with source_of docs scores |}.
Proof.
  intros Hret Hlen. rewrite get_similar_documents_cases, Hret. cbn zeta.
  rewrite collect_sources_cases. by rewrite decide_True.
Qed.

End QueryMore.

Lemma sources_loop_needs_a_score_per_document_witness :
  collect_sources 0 Demo.hits Demo.hit_scores []
  = Return (zip_with source_of Demo.hits (take (length Demo.hits) Demo.hit_scores))
  /\ collect_sources 0 Demo.hits (tail Demo.hit_scores) []
     = Raise (Error "IndexError" "list index out of range").
Proof.
  split.
  - apply (proj1 (sources_loop_needs_a_score_per_document Demo.hits Demo.hit_scores)).
    cbn. lia.
  - apply (proj2 (sources_loop_needs_a_score_per_document Demo.hits
                    (tail Demo.hit_scores))).
    cbn. lia.
Defined.

Lemma query_rag_answers_iff_witness :
  fst (query_rag Demo.healthy (Demo.ask None) Demo.index Demo.warm)
  = Return {| answer := "Answer to: What happened to Scope 1 emissions?";
              sources := Some (zip_with source_of Demo.hits Demo.hit_scores) |}.
Proof.
  apply (proj2 (query_rag_answers_iff Demo.healthy (Demo.ask None) Demo.index Demo.warm _)).
  exists Demo.hits, Demo.hit_scores,
    {| message_content := "Answer to: What happened to Scope 1 emissions?" |}.
  repeat split. cbn. lia.
Defined.

Lemma retrieval_failure_skips_generation_witness :
  fst (query_rag Demo.healthy Demo.ask_null_k Demo.index Demo.warm)
  = Raise (generation_failed (Error "TypeError" "top_k is None"))
  /\ new_calls Demo.warm (snd (query_rag Demo.healthy Demo.ask_null_k Demo.index Demo.warm))
     = [Call_retrieve_relevant_documents_with_scores
          "What happened to Scope 1 emissions?" Demo.index None].
Proof.
  apply (retrieval_failure_skips_generation Demo.healthy Demo.ask_null_k
           Demo.index Demo.warm).
  reflexivity.
Defined.

Lemma similar_documents_ignores_model_and_language_witness :
  get_similar_documents Demo.healthy (Demo.ask (Some "Arabic")) Demo.index Demo.warm
  = get_similar_documents Demo.healthy (Demo.ask None) Demo.index Demo.warm
  /\ new_calls Demo.warm
       (snd (get_similar_documents Demo.healthy (Demo.ask (Some "Arabic"))
               Demo.index Demo.warm))
     = [Call_retrieve_relevant_documents_with_scores
          "What happened to Scope 1 emissions?" Demo.index (Some 2)].
Proof.
  apply (similar_documents_ignores_model_and_language Demo.healthy
           (Demo.ask (Some "Arabic")) (Demo.ask None) Demo.index Demo.warm);
    reflexivity.
Defined.


Lemma similar_documents_answers_without_generator_witness :
  fst (get_similar_documents Demo.generator_down (Demo.ask None) Demo.index Demo.warm)
  = Return {| similar_status := "success";
              documents := zip_with source_of Demo.hits Demo.hit_scores |}.
Proof.
  apply (similar_documents_answers_without_generator Demo.generator_down
           (Demo.ask None) Demo.index Demo.warm Demo.hits Demo.hit_scores).
  - reflexivity.
  - cbn. lia.
Defined.

(** ** The statuses of failed requests *)

Section Statuses.
Context `{Types}.
Implicit Types (V : vector) (OS : host) (w : world) (q : Query).

(** A [try] whose [except] clause turns every exception into a 500 fails
    only with 500. *)
Lemma try_except_status {A} (m : M A) (h : exn -> M A) w :
  (forall e w', raised_status (fst (h e w')) = Some 500) ->
  raised (fst (try_except m h w)) ->
  raised_status (fst (try_except m h w)) = Some 500.
Proof.
  intros Hh. unfold try_except. destruct (m w) as [[a|e] w1]; cbn.
  - contradiction.
  - intros _. apply Hh.
Qed.

Lemma post_similar_documents_some V q w vs :
  vector_store w = Some vs ->
  post_similar_documents V q w = get_similar_documents V q vs w.
Proof.
  intros Hsome. unfold post_similar_documents. unfold mbind at 1, M_bind.
  by rewrite (get_vector_store_some w vs Hsome).
Qed.

(** X12. A query or similar-documents request that fails is reported with
    503 when no store is published and with 500 otherwise; an image or
    feedback request that fails is reported with 500.  No handler lets
    another exception through. *)
Theorem failed_requests_report_500_or_503 V OS q upload feedback w :
  let expected := match vector_store w with None => 503 | Some _ => 500 end in
  (raised (fst (post_query V q w)) ->
     raised_status (fst (post_query V q w)) = Some expected)
  /\ (raised (fst (post_similar_documents V q w)) ->
      raised_status (fst (post_similar_documents V q w)) = Some expected)
  /\ (raised (fst (analyze_image V OS upload w)) ->
      raised_status (fst (analyze_image V OS upload w)) = Some 500)
  /\ (raised (fst (submit_feedback V feedback w)) ->
      raised_status (fst (submit_feedback V feedback w)) = Some 500).
Proof.
  cbn zeta. repeat apply conj.
  - destruct (vector_store w) as [vs|] eqn:Hvs.
    + rewrite (post_query_some V q w vs Hvs). by apply try_except_status.
    + by rewrite (post_query_none V q w Hvs).
  - destruct (vector_store w) as [vs|] eqn:Hvs.
    + rewrite (post_similar_documents_some V q w vs Hvs).
      by apply try_except_status.
    + by rewrite (post_similar_documents_none V q w Hvs).
  - by apply try_except_status.
  - apply try_except_status. intros e w'. reflexivity.
Qed.

End Statuses.

Lemma failed_requests_report_500_or_503_witness :
  raised_status (fst (post_query Demo.generator_down (Demo.ask None) Demo.warm))
  = Some 500
  /\ raised_status (fst (submit_feedback Demo.generator_down
                           (@mkFeedback Demo.demo_types "q" "a" 4 None) Demo.warm))
     = Some 500.
Proof.
  pose proof (failed_requests_report_500_or_503 Demo.generator_down Demo.quiet_host
                (Demo.ask None) Demo.chart
                (@mkFeedback Demo.demo_types "q" "a" 4 None) Demo.warm)
    as (Hq & _ & _ & Hf).
  split; [apply Hq | apply Hf]; exact I.
Defined.

(** ** More on the image route *)

Section ImageMore.
Context `{Types}.
Implicit Types (V : vector) (OS : host) (w : world).

(** The outcome of [analyze_image] on an upload that has a file name, by
    what the disk and the vision helper did. *)
Lemma analyze_image_cases V OS upload w name :
  filename upload = Some name ->
  analyze_image V OS upload w =
  let p := upload_path OS name in
  match open_fault OS p with
  | Some e => (Raise (image_failed e), w)
  | None =>
      let w1 := set_files (<[p := ""]> (files w)) w in
      match copyfileobj_fault OS with
      | Some e => (Raise (image_failed e), w1)
      | None =>
          let w2 := add_call (Call_analyze_infographic p)
                      (set_files (<[p := file upload]> (files w1)) w1) in
          match analyze_infographic V p with
          | Raise e => (Raise (image_failed e), w2)
          | Return out =>
              match unlink_fault OS p with
              | Some e =>
                  (Return {| insights := out |}, add_stdout (cleanup_failed p e) w2)
              | None =>
                  (Return {| insights := out |}, set_files (delete p (files w2)) w2)
              end
          end
      end
  end.
Proof.
  intros Hname. unfold upload_path, image_failed, cleanup_failed.
  set (p := path_join _ _).
  unfold analyze_image, call_analyze_infographic, open_wb, copyfileobj, unlink.
  rewrite Hname. run_handler. fold p. cbn zeta.
  destruct (open_fault OS p); [reflexivity|].
  destruct (copyfileobj_fault OS); [reflexivity|]. cbn.
  destruct (analyze_infographic V p); [|reflexivity].
  destruct (unlink_fault OS p); [reflexivity|]. cbn.
  rewrite lookup_insert_eq. reflexivity.
Qed.

(** X14. A fault of the unlink after a successful analysis does not fail
    the request: the insight is returned, the fault is printed, and the
    temporary file stays on disk with the uploaded bytes. *)
Theorem cleanup_fault_is_printed_not_raised V OS upload w name out e :
  filename upload = Some name ->
  open_fault OS (upload_path OS name) = None ->
  copyfileobj_fault OS = None ->
  analyze_infographic V (upload_path OS name) = Return out ->
  unlink_fault OS (upload_path OS name) = Some e ->
  let w' := snd (analyze_image V OS upload w) in
  fst (analyze_image V OS upload w) = Return {| insights := out |}
  /\ stdout w' = stdout w ++ [cleanup_failed (upload_path OS name) e]
  /\ files w' !! upload_path OS name = Some (file upload).
Proof.
  intros Hname Hopen Hcopy Hvision Hunlink. cbn zeta.
  rewrite (analyze_image_cases V OS upload w name Hname). cbn zeta.
  rewrite Hopen, Hcopy, Hvision, Hunlink. cbn.
  repeat split. apply lookup_insert_eq.
Qed.

(** X15. An upload without a file name, or one whose temporary file cannot
    be opened, fails with status 500 before anything happened: the disk, the
    store, the output and the log of helper calls are as before, so the
    vision helper was not called. *)
Theorem image_request_fails_early_without_effect V OS upload w :
  (filename upload = None
   \/ exists name e,
        filename upload = Some name /\ open_fault OS (upload_path OS name) = Some e) ->
  raised_status (fst (analyze_image V OS upload w)) = Some 500
  /\ snd (analyze_image V OS upload w) = w.
Proof.
  intros [Hnone | (name & e & Hname & Hopen)].
  - unfold analyze_image. rewrite Hnone. run_handler. split; reflexivity.
  - rewrite (analyze_image_cases V OS upload w name Hname). cbn zeta.
    rewrite Hopen. split; reflexivity.
Qed.

(** X16. Whatever happens during an image request, no file other than the
    temporary file of that request is created, changed or removed. *)
Theorem image_request_touches_only_its_file V OS upload w name p :
  filename upload = Some name ->
  p <> upload_path OS name ->
  files (snd (analyze_image V OS upload w)) !! p = files w !! p.
Proof.
  intros Hname Hp.
  rewrite (analyze_image_cases V OS upload w name Hname). cbn zeta.
  destruct (open_fault OS _); [reflexivity|].
  destruct (copyfileobj_fault OS); cbn; [by rewrite lookup_insert_ne|].
  destruct (analyze_infographic V _); cbn.
  - destruct (unlink_fault OS _); cbn.
    + by rewrite !lookup_insert_ne.
    + rewrite lookup_delete_ne by done. by rewrite !lookup_insert_ne.
  - by rewrite !lookup_insert_ne.
Qed.

End ImageMore.

Lemma analyze_image_releases_on_success_witness :
  fst (analyze_image Demo.healthy Demo.quiet_host Demo.chart Demo.cold)
  = Return {| insights := "Emissions are falling." |}
  /\ files (snd (analyze_image Demo.healthy Demo.quiet_host Demo.chart Demo.cold))
       !! "uploads/5f0c7c1e-3b7a-4d4e-9a51-0c2f6d1b8e77.png" = None.
Proof.
  apply (analyze_image_releases_on_success Demo.healthy Demo.quiet_host Demo.chart
           Demo.cold "chart.png" "Emissions are falling."); reflexivity.
Defined.

Lemma cleanup_fault_is_printed_not_raised_witness :
  fst (analyze_image Demo.healthy Demo.readonly_host Demo.chart Demo.cold)
  = Return {| insights := "Emissions are falling." |}
  /\ stdout (snd (analyze_image Demo.healthy Demo.readonly_host Demo.chart Demo.cold))
     = [cleanup_failed "uploads/5f0c7c1e-3b7a-4d4e-9a51-0c2f6d1b8e77.png"
          (Error "PermissionError" "Operation not permitted")]
  /\ files (snd (analyze_image Demo.healthy Demo.readonly_host Demo.chart Demo.cold))
       !! "uploads/5f0c7c1e-3b7a-4d4e-9a51-0c2f6d1b8e77.png" = Some "PNG-bytes".
Proof.
  apply (cleanup_fault_is_printed_not_raised Demo.healthy Demo.readonly_host
           Demo.chart Demo.cold "chart.png" "Emissions are falling."
           (Error "PermissionError" "Operation not permitted")); reflexivity.
Defined.

Lemma image_request_fails_early_without_effect_witness :
  raised_status
    (fst (analyze_image Demo.healthy Demo.quiet_host
            {| filename := None; file := "PNG-bytes" |} Demo.cold)) = Some 500
  /\ snd (analyze_image Demo.healthy Demo.quiet_host
            {| filename := None; file := "PNG-bytes" |} Demo.cold) = Demo.cold.
Proof.
  apply (image_request_fails_early_without_effect Demo.healthy Demo.quiet_host
           {| filename := None; file := "PNG-bytes" |} Demo.cold).
  left. reflexivity.
Defined.

Lemma image_request_touches_only_its_file_witness :
  files (snd (analyze_image Demo.vision_down Demo.quiet_host Demo.chart Demo.cold))
    !! "uploads/other.png" = files Demo.cold !! "uploads/other.png".
Proof.
  apply (image_request_touches_only_its_file Demo.vision_down Demo.quiet_host
           Demo.chart Demo.cold "chart.png" "uploads/other.png").
  - reflexivity.
  - discriminate.
Defined.

(** ** Paths of the temporary files *)

Lemma path_join_uploads (b : string) :
  path_join UPLOAD_DIR b
  = match b with
    | String c _ => if bool_decide (c = "/"%char) then b else "uploads/" +:+ b
    | EmptyString => "uploads/" +:+ b
    end.
Proof.
  destruct b as [|c b]; [reflexivity|].
  destruct c as [[] [] [] [] [] [] [] []]; reflexivity.
Qed.

Lemma path_join_uploads_inj (b1 b2 : string) :
  path_join UPLOAD_DIR b1 = path_join UPLOAD_DIR b2 -> b1 = b2.
Proof.
  rewrite !path_join_uploads.
  destruct b1 as [|c1 b1], b2 as [|c2 b2]; repeat case_bool_decide; subst;
    intros Heq; cbv in Heq; congruence.
Qed.

Lemma append_same_length_inj (u1 u2 e1 e2 : string) :
  String.length u1 = String.length u2 ->
  u1 +:+ e1 = u2 +:+ e2 -> u1 = u2.
Proof.
  revert u2. induction u1 as [|c u1 IH]; intros [|c2 u2] Hlen Heq; cbn in *;
    try discriminate; [reflexivity|].
  inversion Heq; subst. f_equal. apply IH; [congruence | done].
Qed.

(** X17. Two image requests whose identifiers are different strings of the
    same length write to different temporary files, whatever the names of
    the uploaded files. *)
Theorem distinct_identifiers_give_distinct_paths (OS1 OS2 : host) (name1 name2 : string) :
  String.length (uuid4 OS1) = String.length (uuid4 OS2) ->
  uuid4 OS1 <> uuid4 OS2 ->
  upload_path OS1 name1 <> upload_path OS2 name2.
Proof.
  intros Hlen Hne Heq. unfold upload_path in Heq.
  apply path_join_uploads_inj in Heq.
  by apply append_same_length_inj in Heq.
Qed.

Lemma distinct_identifiers_give_distinct_paths_witness :
  upload_path Demo.quiet_host "chart.png" <> upload_path Demo.other_host "chart.png".
Proof.
  apply (distinct_identifiers_give_distinct_paths Demo.quiet_host Demo.other_host
           "chart.png" "chart.png").
  - reflexivity.
  - discriminate.
Defined.

(** ** Feedback *)

Section FeedbackMore.
Context `{Types}.
Implicit Types (V : vector) (w : world).


End FeedbackMore.

(** ** Shut-down *)

Section Shutdown.
Context `{Types}.
Implicit Types (OS : host) (w : world).







End Shutdown.

Section ShutdownClaims.
Context `{Types}.
Implicit Types (OS : host) (w : world).





End ShutdownClaims.


(** ** What the routes leave alone *)

Section DiskFrame.
Context `{Types}.

Lemma files_ret {A} (a : A) : keeps_files (mret a).
Proof. intros w. reflexivity. Qed.

Lemma files_raise {A} (e : exn) : keeps_files (@raise _ A e).
Proof. intros w. reflexivity. Qed.

Lemma files_lift {A} (r : result A) : keeps_files (lift r).
Proof. intros w. reflexivity. Qed.

Lemma files_invoke {A} (c : call) (r : result A) : keeps_files (invoke c r).
Proof. intros w. reflexivity. Qed.

Lemma files_print (s : string) : keeps_files (print s).
Proof. intros w. reflexivity. Qed.

Lemma files_read : keeps_files read_vector_store.
Proof. intros w. reflexivity. Qed.

Lemma files_assign (vs : Store) : keeps_files (assign_vector_store vs).
Proof. intros w. reflexivity. Qed.

Lemma files_bind {A B} (m : M A) (k : A -> M B) :
  keeps_files m -> (forall a, keeps_files (k a)) -> keeps_files (m ≫= k).
Proof.
  intros Hm Hk w. unfold mbind, M_bind.
  specialize (Hm w). destruct (m w) as [[a|e] w1]; cbn [snd] in *.
  - rewrite (Hk a w1). exact Hm.
  - exact Hm.
Qed.

Lemma files_try {A} (m : M A) (h : exn -> M A) :
  keeps_files m -> (forall e, keeps_files (h e)) -> keeps_files (try_except m h).
Proof.
  intros Hm Hh w. unfold try_except.
  specialize (Hm w). destruct (m w) as [[a|e] w1]; cbn [snd] in *.
  - exact Hm.
  - rewrite (Hh e w1). exact Hm.
Qed.

End DiskFrame.

Create HintDb disk.
#[export] Hint Resolve files_ret files_raise files_lift files_invoke files_print
  files_read files_assign : disk.

Ltac disk_step :=
  first
    [ apply files_bind
    | apply files_try
    | solve [auto with disk]
    | match goal with
      | |- keeps_files (match ?x with _ => _ end) => destruct x
      | |- keeps_files (let '(_, _) := ?x in _) => destruct x
      end ].

Ltac disk := repeat (intros; disk_step).

Section RouteFrames.
Context `{Types}.
Implicit Types (V : vector) (w : world) (q : Query).

(** X21. No route other than the refresh, and no part of the application
    other than the refresh and the start-up, assigns the global: after a
    health, query, similar-documents, image or feedback request the
    published store, and so the store handed to the next request, is the one
    before it. *)
Theorem only_refresh_assigns_the_store (r : request) w :
  vector_store (serve r w) = vector_store w
  /\ store_seen (serve r w) = store_seen w.
Proof.
  split; [apply serve_keeps_store | apply store_seen_ext, serve_keeps_store].
Qed.


End RouteFrames.

(** ** Start-up and refresh side by side *)

Section StartupAndRefresh.
Context `{Types}.
Implicit Types (V : vector) (w : world) (pc : refresh_pc).

(** X23. Against the same source and build, the start-up and a refresh
    make the same helper calls and leave the same store published; they
    differ in that the start-up never raises while the refresh raises
    exactly when no store was built. *)
Theorem startup_and_refresh_publish_alike V w :
  vector_store (snd (lifespan_startup V w))
  = vector_store (snd (refresh_vector_store V w))
  /\ new_calls w (snd (lifespan_startup V w))
     = new_calls w (snd (refresh_vector_store V w))
  /\ fst (lifespan_startup V w) = Return tt
  /\ (raised (fst (refresh_vector_store V w))
      <-> vector_store (snd (refresh_vector_store V w)) = vector_store w
          /\ forall docs vs,
               fetch_data_from_table V = Return docs ->
               create_vector_store_from_sql_data V docs embeddings_model_name
               = Return vs ->
               docs = []).
Proof.
  rewrite lifespan_startup_cases, refresh_vector_store_cases. cbn zeta.
  destruct (fetch_data_from_table V) as [[|d docs]|e]; cbn.
  - split; [done|]. split; [done|]. split; [done|]. split; [|done].
    intros _. split; [done|]. intros docs vs [= <-]. done.
  - destruct (create_vector_store_from_sql_data V (d :: docs) _) as [vs|e] eqn:Hb; cbn.
    + split; [done|]. split; [done|]. split; [done|]. split; [done|].
      intros [_ Hnone]. by specialize (Hnone (d :: docs) vs eq_refl Hb).
    + split; [done|]. split; [done|]. split; [done|]. split; [|done].
      intros _. split; [done|]. intros docs' vs [= <-] Hb'. congruence.
  - split; [done|]. split; [done|]. split; [done|]. split; [|done].
    intros _. split; [done|]. intros docs vs [=].
Qed.

(** The line a refresh is at does not depend on the state it runs in. *)
Lemma refresh_step_pc V pc w w' :
  fst (refresh_step V pc w) = fst (refresh_step V pc w').
Proof.
  destruct pc as [|docs|docs|docs vs|docs|e|r]; cbn; try reflexivity.
  - by destruct (fetch_data_from_table V).
  - by destruct docs.
  - by destruct (create_vector_store_from_sql_data V docs _).
Qed.

Lemma refresh_steps_pc V n : forall pc w w',
  fst (refresh_steps V n (pc, w)) = fst (refresh_steps V n (pc, w')).
Proof.
  induction n as [|n IH]; intros pc w w'; cbn; [reflexivity|].
  pose proof (refresh_step_pc V pc w w') as Hpc.
  destruct (refresh_step V pc w) as [pc1 w1], (refresh_step V pc w') as [pc2 w2].
  cbn in Hpc. subst pc2. apply IH.
Qed.







End StartupAndRefresh.


Section ImageFaults.
Context `{Types}.
Implicit Types (V : vector) (OS : host) (w : world).

(** X25. When the copy of the uploaded bytes fails, the request ends with
    status 500 without calling the vision helper, and the temporary file
    that was just created stays on disk. *)
Theorem copy_fault_leaves_file_behind V OS upload w name e :
  filename upload = Some name ->
  open_fault OS (upload_path OS name) = None ->
  copyfileobj_fault OS = Some e ->
  let w' := snd (analyze_image V OS upload w) in
  fst (analyze_image V OS upload w) = Raise (image_failed e)
  /\ is_Some (files w' !! upload_path OS name)
  /\ calls w' = calls w.
Proof.
  intros Hname Hopen Hcopy. cbn zeta.
  rewrite (analyze_image_cases V OS upload w name Hname). cbn zeta.
  rewrite Hopen, Hcopy. cbn. split; [reflexivity|]. split; [|reflexivity].
  rewrite lookup_insert_eq. by eexists.
Qed.

End ImageFaults.

Lemma copy_fault_leaves_file_behind_witness :
  fst (analyze_image Demo.healthy Demo.full_disk_host Demo.chart Demo.cold)
  = Raise (image_failed (Error "OSError" "No space left on device"))
  /\ is_Some (files (snd (analyze_image Demo.healthy Demo.full_disk_host
                            Demo.chart Demo.cold))
                !! "uploads/5f0c7c1e-3b7a-4d4e-9a51-0c2f6d1b8e77.png")
  /\ calls (snd (analyze_image Demo.healthy Demo.full_disk_host Demo.chart Demo.cold))
     = [].
Proof.
  apply (copy_fault_leaves_file_behind Demo.healthy Demo.full_disk_host Demo.chart
           Demo.cold "chart.png" (Error "OSError" "No space left on device"));
    reflexivity.
Defined.
